(** * Deployment signalling, readiness polling and resource reconciliation

A shallow embedding of [paasta_tools/cli/cmds/mark_for_deployment.py]
(the intent signal, the readiness oracle and the bounded-time waiter)
and of the reconcilers exercised by
[tests/kubernetes/application/test_controller_wrapper.py].

Python code that talks to the outside world is written in a small
state-and-exception monad over a [world] that records the logical clock,
the pending alarm and the chronological trace of external calls. *)

From Stdlib Require Import String Ascii List ZArith Lia Bool Arith PeanoNat.
From Stdlib Require Import DecimalString.
Import ListNotations.

Local Open Scope list_scope.
Local Open Scope string_scope.

(* ================================================================= *)
(** ** Python strings and comparisons *)

Module Py.

(** The line feed character, ['\n']. *)
Definition LF : ascii := "010"%char.

(** [s.startswith(p)]. *)
Definition startswith (s p : string) : bool :=
  String.prefix p s.

(** [s.split(sep)] for a one-character separator: the pieces between the
    occurrences of [sep]; never the empty list. *)
Fixpoint split (sep : ascii) (s : string) : list string :=
  match s with
  | EmptyString => [EmptyString]
  | String c rest =>
      if Ascii.eqb c sep then EmptyString :: split sep rest
      else match split sep rest with
           | [] => [String c EmptyString]
           | piece :: pieces => String c piece :: pieces
           end
  end.

(** [sep.join(pieces)] for a one-character separator. *)
Definition join (sep : ascii) (pieces : list string) : string :=
  String.concat (String sep EmptyString) pieces.

(** Number of occurrences of a character, [s.count(c)]. *)
Fixpoint count (c : ascii) (s : string) : nat :=
  match s with
  | EmptyString => 0
  | String a rest => (if Ascii.eqb a c then 1 else 0) + count c rest
  end.

(** [s.split(sep, 1)] for a string separator: split at the first
    occurrence of [sep], or the whole string when there is none. *)
Definition split_once (sep s : string) : list string :=
  match String.index 0 sep s with
  | Some i =>
      [ String.substring 0 i s
      ; String.substring (i + String.length sep)
                         (String.length s - (i + String.length sep)) s ]
  | None => [s]
  end.

(** [str(n)] for a non-negative integer. *)
Definition str_of_nat (n : nat) : string :=
  NilEmpty.string_of_uint (Nat.to_uint n).

(** [a == b] where either side is an integer or [None]. *)
Definition eq_int (a b : option Z) : bool :=
  match a, b with
  | Some x, Some y => Z.eqb x y
  | None, None => true
  | _, _ => false
  end.

(** [a == b] where either side is a string or [None]. *)
Definition eq_str (a b : option string) : bool :=
  match a, b with
  | Some x, Some y => String.eqb x y
  | None, None => true
  | _, _ => false
  end.

End Py.

(* ================================================================= *)
(** ** Effects: exceptions, the world, the monad *)

(** The exceptions the module raises or lets through. *)
Inductive exn : Type :=
| TypeError          (* [startswith] applied to [None] *)
| IndexError         (* list index out of range *)
| TimeoutError       (* raised when the [Timeout] alarm goes off *)
| NoInstancesFound
| NoSuchService      (* raised by [validate_service_name] *)
| SystemExit (code : Z).

(** What a call can come to: a value, an exception, or (for the unbounded
    [while True] loop only) the end of the fuel given to the model. *)
Inductive outcome (A : Type) : Type :=
| Ret (a : A)
| Raise (e : exn)
| OutOfFuel.

Arguments Ret {A} a.
Arguments Raise {A} e.
Arguments OutOfFuel {A}.

(** External calls, in the order they are made. *)
Inductive event : Type :=
| EvLog (service line component level : string)
| EvValidate (service soa_dir : string)
| EvCreateRemoteRefs (git_url ref sha : string) (force : bool)
| EvListInstances (service deploy_group : string)
| EvStatusInstance (service instance : string)
| EvSleep (seconds : nat).

Record world : Type := mkWorld
  { now : nat                 (* logical clock, in seconds *)
  ; alarm : option nat        (* absolute time of the pending alarm *)
  ; trace : list event }.

Definition M (A : Type) : Type := world -> outcome A * world.

Definition ret {A} (a : A) : M A := fun w => (Ret a, w).

Definition raise {A} (e : exn) : M A := fun w => (Raise e, w).

Definition bind {A B} (m : M A) (k : A -> M B) : M B :=
  fun w =>
    match m w with
    | (Ret a, w1) => k a w1
    | (Raise e, w1) => (Raise e, w1)
    | (OutOfFuel, w1) => (OutOfFuel, w1)
    end.

Declare Scope eff_scope.
Delimit Scope eff_scope with eff.
Notation "x <- m ;; k" := (bind m (fun x => k))
  (at level 61, m at next level, right associativity) : eff_scope.
Notation "m ;;; k" := (bind m (fun _ => k))
  (at level 61, right associativity) : eff_scope.
Local Open Scope eff_scope.

(** [try: m except E: handler] for a single exception class. *)
Definition try_except {A} (m : M A) (catches : exn -> bool)
    (handler : exn -> M A) : M A :=
  fun w =>
    match m w with
    | (Raise e, w1) => if catches e then handler e w1 else (Raise e, w1)
    | r => r
    end.

Definition emit (ev : event) : M unit :=
  fun w => (Ret tt, mkWorld (now w) (alarm w) (trace w ++ [ev])).

(** Has the pending alarm gone off? *)
Definition expired (w : world) : bool :=
  match alarm w with
  | Some deadline => Nat.leb deadline (now w)
  | None => false
  end.

(** A point where a pending signal is delivered. *)
Definition checkpoint : M unit :=
  fun w => if expired w then (Raise TimeoutError, w) else (Ret tt, w).

(** [time.sleep(seconds)]: the clock advances; an alarm that falls due
    during the sleep cuts it short at the deadline. *)
Definition sleep (seconds : nat) : M unit :=
  fun w =>
    let w1 := mkWorld (now w) (alarm w) (trace w ++ [EvSleep seconds]) in
    match alarm w with
    | Some deadline =>
        if Nat.leb deadline (now w + seconds)
        then (Raise TimeoutError,
              mkWorld (Nat.max (now w) deadline) (alarm w) (trace w1))
        else (Ret tt, mkWorld (now w + seconds) (alarm w) (trace w1))
    | None => (Ret tt, mkWorld (now w + seconds) (alarm w) (trace w1))
    end.

(** Modelled from the spec: the [Timeout] context manager of
    [paasta_tools.utils], which is not part of the sources at hand.  The
    spec describes it as a hard wall-clock deadline measured from the start
    of the wait: the body runs with an alarm set [seconds] after the
    current time, a step that reaches the deadline raises [TimeoutError],
    and the alarm is cleared when the block is left, however it is left. *)
Definition with_Timeout {A} (seconds : nat) (body : M A) : M A :=
  fun w =>
    match body (mkWorld (now w) (Some (now w + seconds)) (trace w)) with
    | (r, w1) => (r, mkWorld (now w1) None (trace w1))
    end.

(* ================================================================= *)
(** ** The status data and the external collaborators *)

(** [status.marathon]: the workload-management part of an instance status.
    A field the API response leaves out reads as [None]. *)
Record MarathonStatus : Type := mkMarathonStatus
  { app_count : option Z
  ; deploy_status : option string
  ; expected_instance_count : option Z
  ; running_instance_count : option Z }.

(** The result of [api.service.status_instance(...)]. *)
Record InstanceStatus : Type := mkInstanceStatus
  { git_sha : option string
  ; marathon : option MarathonStatus }.

(** What the code imports and calls but does not define: the git remote,
    the tag helpers of [paasta_tools.utils], service-name validation and
    the PaaSTA API.  Status answers may change with time. *)
Record collaborators : Type := mkCollaborators
  { get_paasta_tag_from_deploy_group : string -> string -> string
  ; format_tag : string -> string
  ; create_remote_refs : string -> string -> string -> option string
      (* [None]: the push went through; [Some msg]: it raised an
         [Exception] whose [str] is [msg] *)
  ; validate_service_name : string -> string -> bool
      (* [false]: raises *)
  ; list_instances : string -> string -> list string
  ; status_instance : nat -> string -> string -> InstanceStatus }.

(** The parsed command line, see [add_subparser]. *)
Record Args : Type := mkArgs
  { args_git_url : string
  ; args_commit : string
  ; args_deploy_group : string
  ; args_service : string
  ; args_block : bool
  ; args_timeout : nat
  ; args_soa_dir : string }.

Definition DEFAULT_DEPLOYMENT_TIMEOUT : nat := 1200.

(* ================================================================= *)
(** ** [mark_for_deployment.py] *)

Module MarkForDeployment.
Section WithCollaborators.

Variable env : collaborators.

(** [_log(service=..., line=..., component='deploy', level='event')]. *)
Definition _log (service line : string) : M unit :=
  emit (EvLog service line "deploy" "event").

Fixpoint log_all (service : string) (loglines : list string) : M unit :=
  match loglines with
  | [] => ret tt
  | logline :: rest => _log service logline ;;; log_all service rest
  end.

Definition failed_line (commit deploy_group : string) : string :=
  "Failed to mark " ++ commit ++ " in for deployment in deploy group "
    ++ deploy_group ++ "!".

Definition marked_line (commit deploy_group : string) : string :=
  "Marked " ++ commit ++ " in for deployment in deploy group "
    ++ deploy_group.

(** [mark_for_deployment(git_url, deploy_group, service, commit)]. *)
Definition mark_for_deployment
    (git_url deploy_group service commit : string) : M Z :=
  let tag := get_paasta_tag_from_deploy_group env deploy_group "deploy" in
  let remote_tag := format_tag env tag in
  emit (EvCreateRemoteRefs git_url remote_tag commit true) ;;;
  let '(loglines, return_code) :=
    match create_remote_refs env git_url remote_tag commit with
    | Some str_e =>
        (failed_line commit deploy_group :: Py.split Py.LF str_e, 1%Z)
    | None => ([marked_line commit deploy_group], 0%Z)
    end in
  log_all service loglines ;;;
  ret return_code.

(** The status request of [is_instance_deployed]. *)
Definition fetch_status (service instance : string) : M InstanceStatus :=
  checkpoint ;;;
  emit (EvStatusInstance service instance) ;;;
  fun w => (Ret (status_instance env (now w) service instance), w).

(** The decision of [is_instance_deployed] once the status is there.
    [and] evaluates left to right, so [startswith] sees the observed
    commit before anything else is looked at. *)
Definition deployed_status (status : InstanceStatus) (sha : string)
    : outcome bool :=
  match marathon status with
  | None => Ret true
  | Some m =>
      match git_sha status with
      | None => Raise TypeError
      | Some observed =>
          Ret (Py.startswith sha observed
               && Py.eq_int (app_count m) (Some 1%Z)
               && Py.eq_str (deploy_status m) (Some "Running")
               && Py.eq_int (expected_instance_count m)
                            (running_instance_count m))
      end
  end.

(** [is_instance_deployed(service, instance, git_sha)]. *)
Definition is_instance_deployed (service instance sha : string) : M bool :=
  status <- fetch_status service instance ;;
  fun w => (deployed_status status sha, w).

(** [[is_instance_deployed(service, instance, git_sha)
      for instance in instances]]: every instance is asked, in order. *)
Fixpoint deployed_each (service : string) (instances : list string)
    (sha : string) : M (list bool) :=
  match instances with
  | [] => ret []
  | instance :: rest =>
      b <- is_instance_deployed service instance sha ;;
      bs <- deployed_each service rest sha ;;
      ret (b :: bs)
  end.

(** [all([...])]. *)
Definition all (bs : list bool) : bool := forallb (fun b => b) bs.

(** The [while True] loop of [wait_for_deployment]. *)
Fixpoint poll_loop (fuel : nat) (service : string)
    (instances : list string) (sha : string) : M unit :=
  match fuel with
  | 0 => fun w => (OutOfFuel, w)
  | S fuel' =>
      bs <- deployed_each service instances sha ;;
      if all bs then ret tt
      else sleep 10 ;;; poll_loop fuel' service instances sha
  end.

Definition no_instances_line (service deploy_group : string) : string :=
  "Couldn't find any instances for service " ++ service
    ++ " in deploy group " ++ deploy_group.

Definition timed_out_line (timeout : nat) (deploy_group service : string)
    : string :=
  "Timed out after " ++ Py.str_of_nat timeout
    ++ " seconds, waiting for " ++ deploy_group ++ " in " ++ service
    ++ " to be deployed by PaaSTA. Try running 'paasta status -s "
    ++ service ++ " -v' to determine the cause. If the service is slow "
    ++ "to start you may wish to increase the timeout".

Definition is_TimeoutError (e : exn) : bool :=
  match e with TimeoutError => true | _ => false end.

(** [wait_for_deployment(service, deploy_group, git_sha, soa_dir, timeout)];
    [fuel] bounds the number of iterations of the loop. *)
Definition wait_for_deployment (fuel : nat)
    (service deploy_group sha soa_dir : string) (timeout : nat) : M unit :=
  emit (EvListInstances service deploy_group) ;;;
  let instances := list_instances env service deploy_group in
  match instances with
  | [] =>
      _log service (no_instances_line service deploy_group) ;;;
      raise NoInstancesFound
  | _ :: _ =>
      try_except
        (with_Timeout timeout (poll_loop fuel service instances sha))
        is_TimeoutError
        (fun e =>
           _log service (timed_out_line timeout deploy_group service) ;;;
           raise e)
  end.

(** [service.split('services-', 1)[1]]. *)
Definition strip_services (service : string) : M string :=
  match nth_error (Py.split_once "services-" service) 1 with
  | Some rest => ret rest
  | None => raise IndexError
  end.

Definition waiting_line (commit deploy_group : string) : string :=
  "Waiting for deployment of " ++ commit ++ " to " ++ deploy_group
    ++ " complete".

Definition complete_line (commit deploy_group : string) : string :=
  "Deployment of " ++ commit ++ " to " ++ deploy_group ++ " complete".

(** [paasta_mark_for_deployment(args)]. *)
Definition paasta_mark_for_deployment (fuel : nat) (args : Args) : M Z :=
  let deploy_group := args_deploy_group args in
  service <-
    (if negb (String.eqb (args_service args) "")
        && Py.startswith (args_service args) "services-"
     then strip_services (args_service args)
     else ret (args_service args)) ;;
  emit (EvValidate service (args_soa_dir args)) ;;;
  (if validate_service_name env service (args_soa_dir args)
   then ret tt else raise NoSuchService) ;;;
  r <- mark_for_deployment (args_git_url args) deploy_group service
         (args_commit args) ;;
  (if args_block args then
     try_except
       (_log service (waiting_line (args_commit args) deploy_group) ;;;
        wait_for_deployment fuel (args_service args)
          (args_deploy_group args) (args_commit args)
          (args_soa_dir args) (args_timeout args) ;;;
        _log service (complete_line (args_commit args) deploy_group))
       is_TimeoutError
       (fun _ => raise (SystemExit 1))
   else ret tt) ;;;
  ret r.

End WithCollaborators.
End MarkForDeployment.

(* ================================================================= *)
(** ** The reconcilers of [controller_wrappers] *)

(** The module under test in [test_controller_wrapper.py],
    [paasta_tools.kubernetes.application.controller_wrappers], is not among
    the sources; its operations are modelled from the spec (sections 4.4 to
    4.6) and from the calls the tests assert. *)
Module ControllerWrappers.

Inductive autoscaling_policy : Type :=
| PolicyAbsent | PolicyManaged | PolicyBespoke.

Inductive instance_setting : Type :=
| FixedInstances (count : Z)
| InstanceBounds (min_instances max_instances : Z).

(** The desired application spec of the data model (section 3).  The
    margin factor is kept as a percentage. *)
Record DesiredApplicationSpec : Type := mkDesired
  { bounce_method : string
  ; instances : instance_setting
  ; autoscaling : autoscaling_policy
  ; bounce_margin_percent : Z }.

Record HpaSpec : Type := mkHpa
  { hpa_min_replicas : Z
  ; hpa_max_replicas : Z
  ; hpa_metrics : list string }.

Record PdbSpec : Type := mkPdb
  { pdb_name : string
  ; pdb_namespace : string
  ; pdb_max_unavailable : Z }.

(** A wrapped workload: [item.metadata] and [soa_config]. *)
Record Application : Type := mkApplication
  { app_name : string
  ; app_namespace : string
  ; soa_config : DesiredApplicationSpec }.

(** Cluster clients are told apart by the order of their construction. *)
Definition client_id : Type := nat.

Inductive kube_call : Type :=
| CreateHPA (namespace : string) (body : HpaSpec)
| PatchHPA (namespace name : string) (body : HpaSpec)
| DeleteHPA (namespace name : string)
| ReadPDB (namespace name : string)
| CreatePDB (namespace : string) (body : PdbSpec)
| PatchPDB (namespace name : string) (body : PdbSpec)
| UpdateDeployment (namespace name : string)
| DeleteDeployment (namespace name : string)
| CreateDeployment (namespace name : string).

(** A unit of background work handed to a worker: the target and the
    client it was given. *)
Record background_unit : Type := mkUnit
  { unit_target : Application
  ; unit_client : client_id }.

(** The live resources of one (service, instance), the clients built so
    far, the calls made and the background units launched. *)
Record cluster : Type := mkCluster
  { live_hpa : option HpaSpec
  ; live_pdb : option PdbSpec
  ; pdb_read_fault : option Z
      (* [Some status]: reading the budget fails with that status,
         other than not-found *)
  ; next_client : client_id
  ; calls : list (client_id * kube_call)
  ; background : list background_unit }.

Inductive kresult (A : Type) : Type :=
| KRet (a : A)
| KApiException (status : Z).
Arguments KRet {A} a.
Arguments KApiException {A} status.

Definition K (A : Type) : Type := cluster -> kresult A * cluster.

Definition record_call (c : client_id) (call : kube_call) (k : cluster)
    : cluster :=
  mkCluster (live_hpa k) (live_pdb k) (pdb_read_fault k) (next_client k)
            (calls k ++ [(c, call)]) (background k).

Definition set_hpa (h : option HpaSpec) (k : cluster) : cluster :=
  mkCluster h (live_pdb k) (pdb_read_fault k) (next_client k)
            (calls k) (background k).

Definition set_pdb (p : option PdbSpec) (k : cluster) : cluster :=
  mkCluster (live_hpa k) p (pdb_read_fault k) (next_client k)
            (calls k) (background k).

Definition is_create_hpa (c : kube_call) : bool :=
  match c with CreateHPA _ _ => true | _ => false end.
Definition is_patch_hpa (c : kube_call) : bool :=
  match c with PatchHPA _ _ _ => true | _ => false end.
Definition is_delete_hpa (c : kube_call) : bool :=
  match c with DeleteHPA _ _ => true | _ => false end.
Definition is_create_pdb (c : kube_call) : bool :=
  match c with CreatePDB _ _ => true | _ => false end.
Definition is_patch_pdb (c : kube_call) : bool :=
  match c with PatchPDB _ _ _ => true | _ => false end.

(** How many of the calls satisfy [p]: a mock's [call_count]. *)
Definition call_count (p : kube_call -> bool)
    (cs : list (client_id * kube_call)) : nat :=
  List.length (filter (fun c => p (snd c)) cs).

(** Creates, patches and deletes of the autoscaler among the calls. *)
Definition hpa_counts (cs : list (client_id * kube_call))
    : nat * nat * nat :=
  (call_count is_create_hpa cs,
   call_count is_patch_hpa cs,
   call_count is_delete_hpa cs).

(** Creates and patches of the disruption budget among the calls. *)
Definition pdb_counts (cs : list (client_id * kube_call)) : nat * nat :=
  (call_count is_create_pdb cs, call_count is_patch_pdb cs).

(** The calls made from [before] to [after]. *)
Definition new_calls (before after : cluster)
    : list (client_id * kube_call) :=
  skipn (List.length (calls before)) (calls after).

Section Reconcilers.

(** The computed specs are inputs: this core does not decide what
    they contain (section 1, non-goals). *)
Variable get_autoscaling_metric_spec :
  DesiredApplicationSpec -> string -> string -> HpaSpec.
Variable max_unavailable_for : Z -> instance_setting -> Z.

(** Modelled from the spec: [sync_horizontal_pod_autoscaler]
    (section 4.4), absent from the sources. *)
Definition sync_horizontal_pod_autoscaler (kube_client : client_id)
    (app : Application) : K unit :=
  fun k =>
    match autoscaling (soa_config app) with
    | PolicyBespoke => (KRet tt, k)
    | PolicyAbsent =>
        match live_hpa k with
        | Some _ =>
            (KRet tt,
             set_hpa None
               (record_call kube_client
                  (DeleteHPA (app_namespace app) (app_name app)) k))
        | None => (KRet tt, k)
        end
    | PolicyManaged =>
        let body :=
          get_autoscaling_metric_spec (soa_config app)
            (app_name app) (app_namespace app) in
        match live_hpa k with
        | None =>
            (KRet tt,
             set_hpa (Some body)
               (record_call kube_client
                  (CreateHPA (app_namespace app) body) k))
        | Some _ =>
            (KRet tt,
             set_hpa (Some body)
               (record_call kube_client
                  (PatchHPA (app_namespace app) (app_name app) body) k))
        end
    end.

(** Modelled from the spec: the desired budget (section 4.5) has the
    name and namespace of the workload and the maximum-unavailable
    count derived from the margin and the instance count. *)
Definition pod_disruption_budget_for (app : Application) : PdbSpec :=
  mkPdb (app_name app) (app_namespace app)
        (max_unavailable_for
           (bounce_margin_percent (soa_config app))
           (instances (soa_config app))).

(** Modelled from the spec: reading the live budget (section 4.5);
    not-found is status 404, as in the tests. *)
Definition read_pod_disruption_budget (kube_client : client_id)
    (app : Application) : K PdbSpec :=
  fun k =>
    let k1 := record_call kube_client
                (ReadPDB (app_namespace app) (app_name app)) k in
    match pdb_read_fault k with
    | Some status => (KApiException status, k1)
    | None =>
        match live_pdb k with
        | Some p => (KRet p, k1)
        | None => (KApiException 404%Z, k1)
        end
    end.

(** Modelled from the spec: [ensure_pod_disruption_budget]
    (section 4.5), absent from the sources.  The budget is created in
    the namespace the test asserts. *)
Definition ensure_pod_disruption_budget (kube_client : client_id)
    (app : Application) : K unit :=
  fun k =>
    let pdr := pod_disruption_budget_for app in
    match read_pod_disruption_budget kube_client app k with
    | (KRet _existing, k1) =>
        (KRet tt,
         set_pdb (Some pdr)
           (record_call kube_client
              (PatchPDB (pdb_namespace pdr) (pdb_name pdr) pdr) k1))
    | (KApiException status, k1) =>
        if Z.eqb status 404
        then (KRet tt,
              set_pdb (Some pdr)
                (record_call kube_client
                   (CreatePDB "paasta" pdr) k1))
        else (KApiException status, k1)
    end.

(** Modelled from the spec: building a fresh, independent client
    (section 4.6), [KubeClient()] in the tests. *)
Definition new_KubeClient : K client_id :=
  fun k =>
    (KRet (next_client k),
     mkCluster (live_hpa k) (live_pdb k) (pdb_read_fault k)
               (S (next_client k)) (calls k) (background k)).

(** Modelled from the spec: handing a unit of background work to a
    worker and going on without joining it (section 4.6). *)
Definition launch (target : Application) (c : client_id) : K unit :=
  fun k =>
    (KRet tt,
     mkCluster (live_hpa k) (live_pdb k) (pdb_read_fault k)
               (next_client k) (calls k)
               (background k ++ [mkUnit target c])).

(** Modelled from the spec: what a launched unit does when the worker
    runs it (section 4.6): delete, then create, through the client it
    was given. *)
Definition deep_delete_and_create (u : background_unit) (k : cluster)
    : cluster :=
  let app := unit_target u in
  record_call (unit_client u)
    (CreateDeployment (app_namespace app) (app_name app))
    (record_call (unit_client u)
       (DeleteDeployment (app_namespace app) (app_name app)) k).

(** Modelled from the spec: [DeploymentWrapper.update] (section 4.6),
    absent from the sources. *)
Definition update (kube_client : client_id) (app : Application)
    : K unit :=
  fun k =>
    if String.eqb (bounce_method (soa_config app)) "brutal"
    then
      match new_KubeClient k with
      | (KRet fresh, k1) => launch app fresh k1
      | (KApiException status, k1) => (KApiException status, k1)
      end
    else
      (KRet tt,
       record_call kube_client
         (UpdateDeployment (app_namespace app) (app_name app)) k).

End Reconcilers.

End ControllerWrappers.

(* ================================================================= *)
(** ** Reading traces *)

(** The events [_log] leaves for a list of lines. *)
Definition logged (service : string) (lines : list string) : list event :=
  map (fun line => EvLog service line "deploy" "event") lines.

(** The events one round of status requests leaves. *)
Definition polled (service : string) (instances : list string)
    : list event :=
  map (fun instance => EvStatusInstance service instance) instances.

(** Status requests and sleeps, the only events of the polling loop. *)
Definition is_poll_event (ev : event) : bool :=
  match ev with
  | EvStatusInstance _ _ | EvSleep _ => true
  | _ => false
  end.

(** The world after further events, the clock and the alarm unchanged. *)
Definition after (w : world) (evs : list event) : world :=
  mkWorld (now w) (alarm w) (trace w ++ evs).

(** A computation only ever adds events to the trace. *)
Definition grows {A} (m : M A) : Prop :=
  forall w, exists evs, trace (snd (m w)) = (trace w ++ evs)%list.

(** At every moment each status can be decided and some instance of the
    list is not deployed: the instances are never all deployed. *)
Definition never_all_deployed (env : collaborators)
    (service : string) (instances : list string) (sha : string) : Prop :=
  forall t,
    (forall i, In i instances ->
       exists b,
         MarkForDeployment.deployed_status
           (status_instance env t service i) sha = Ret b) /\
    (exists i, In i instances /\
       MarkForDeployment.deployed_status
         (status_instance env t service i) sha = Ret false).

(** At moment [t] each status can be decided and some instance of the
    list is not deployed. *)
Definition lagging_at (env : collaborators) (t : nat)
    (service : string) (instances : list string) (sha : string) : Prop :=
  (forall i, In i instances ->
     exists b,
       MarkForDeployment.deployed_status
         (status_instance env t service i) sha = Ret b) /\
  (exists i, In i instances /\
     MarkForDeployment.deployed_status
       (status_instance env t service i) sha = Ret false).

(** At moment [t] every instance of the list is deployed. *)
Definition all_deployed_at (env : collaborators) (t : nat)
    (service : string) (instances : list string) (sha : string) : Prop :=
  forall i, In i instances ->
    MarkForDeployment.deployed_status
      (status_instance env t service i) sha = Ret true.

(** The events of [k] rounds that each found some instance lagging: the
    status requests of the round, then the sleep. *)
Definition rounds (service : string) (instances : list string) (k : nat)
    : list event :=
  concat (repeat (polled service instances ++ [EvSleep 10])%list k).

(** [name] is the service the wrapper works under when it is given
    [given]: what follows a leading "services-", or [given] itself when
    there is no such prefix. *)
Definition names_service (given name : string) : Prop :=
  given = "services-" ++ name \/
  (Py.startswith given "services-" = false /\ name = given).

(* ================================================================= *)
(** ** Concrete inputs used by the examples below *)

Module Fixtures.

(** One replica set, running, three of three instances up, and the
    eight-character commit the status reports. *)
Definition converged : MarathonStatus :=
  mkMarathonStatus (Some 1%Z) (Some "Running") (Some 3%Z) (Some 3%Z).

Definition scaling_up : MarathonStatus :=
  mkMarathonStatus (Some 1%Z) (Some "Running") (Some 3%Z) (Some 2%Z).

Definition no_counts : MarathonStatus :=
  mkMarathonStatus (Some 1%Z) (Some "Running") None None.

Definition status_converged : InstanceStatus :=
  mkInstanceStatus (Some "abcdef12") (Some converged).

Definition status_scaling_up : InstanceStatus :=
  mkInstanceStatus (Some "abcdef12") (Some scaling_up).

Definition status_no_commit : InstanceStatus :=
  mkInstanceStatus None (Some converged).

Definition status_no_counts : InstanceStatus :=
  mkInstanceStatus (Some "abcdef12") (Some no_counts).

Definition status_unmanaged : InstanceStatus :=
  mkInstanceStatus None None.

(** Collaborators that always answer the same: the outcome of the push,
    the instances of every deploy group, the status of every instance. *)
Definition steady (push : option string) (instances : list string)
    (status : InstanceStatus) : collaborators :=
  mkCollaborators
    (fun identifier desired_state =>
       "paasta-" ++ identifier ++ "-" ++ desired_state)
    (fun tag => "refs/tags/" ++ tag)
    (fun _ _ _ => push)
    (fun _ _ => true)
    (fun _ _ => instances)
    (fun _ _ _ => status).

Definition start : world := mkWorld 0 None [].

Definition full_sha : string := "abcdef1234567890".

(** A push rejected with a two-line message. *)
Definition rejected : string :=
  "remote: denied" ++ String Py.LF "fatal: could not push".

Definition blocking_args : Args :=
  mkArgs "git@git.example:services/example" full_sha "prod.main"
         "services-example" true 25 "/nail/etc/services".


(** Collaborators under which every instance is still scaling up before
    second [ready_at] and converged from then on. *)
Definition settling (push : option string) (instances : list string)
    (ready_at : nat) : collaborators :=
  mkCollaborators
    (fun identifier desired_state =>
       "paasta-" ++ identifier ++ "-" ++ desired_state)
    (fun tag => "refs/tags/" ++ tag)
    (fun _ _ _ => push)
    (fun _ _ => true)
    (fun _ _ => instances)
    (fun t _ _ =>
       if Nat.ltb t ready_at then status_scaling_up else status_converged).

Definition plain_args : Args :=
  mkArgs "git@git.example:services/example" full_sha "prod.main"
         "example" true 25 "/nail/etc/services".

(** The inputs of [test_controller_wrapper.py]: a workload named
    "fake_name" in namespace "faasta". *)
Definition desired (method : string)
    (policy : ControllerWrappers.autoscaling_policy)
    : ControllerWrappers.DesiredApplicationSpec :=
  ControllerWrappers.mkDesired method
    (ControllerWrappers.InstanceBounds 1 3) policy 10.

Definition fake_app (method : string)
    (policy : ControllerWrappers.autoscaling_policy)
    : ControllerWrappers.Application :=
  ControllerWrappers.mkApplication "fake_name" "faasta"
    (desired method policy).

Definition metric_spec (d : ControllerWrappers.DesiredApplicationSpec)
    (name namespace : string) : ControllerWrappers.HpaSpec :=
  match ControllerWrappers.instances d with
  | ControllerWrappers.FixedInstances n =>
      ControllerWrappers.mkHpa n n ["cpu"]
  | ControllerWrappers.InstanceBounds lo hi =>
      ControllerWrappers.mkHpa lo hi ["cpu"]
  end.

Definition ten_unavailable (margin : Z)
    (setting : ControllerWrappers.instance_setting) : Z := 10.

(** A cluster whose only client so far is client 0, with the given live
    autoscaler and budget. *)
Definition cluster_with (hpa : option ControllerWrappers.HpaSpec)
    (pdb : option ControllerWrappers.PdbSpec)
    : ControllerWrappers.cluster :=
  ControllerWrappers.mkCluster hpa pdb None 1 [] [].

Definition outdated_budget : ControllerWrappers.PdbSpec :=
  ControllerWrappers.mkPdb "fake_name" "faasta" 5.

End Fixtures.

(* ================================================================= *)
(** ** Properties of the readiness oracle *)

Import MarkForDeployment.

Lemma eq_int_true_iff (a b : option Z) : Py.eq_int a b = true <-> a = b.
Proof.
  destruct a as [x|], b as [y|]; simpl; split; intro H;
    try discriminate; try reflexivity.
  - apply Z.eqb_eq in H. now subst.
  - injection H as ->. apply Z.eqb_refl.
Qed.

Lemma eq_str_true_iff (a b : option string) : Py.eq_str a b = true <-> a = b.
Proof.
  destruct a as [x|], b as [y|]; simpl; split; intro H;
    try discriminate; try reflexivity.
  - apply String.eqb_eq in H. now subst.
  - injection H as ->. apply String.eqb_refl.
Qed.

(** With no alarm due, the status request goes through and the answer is
    the decision on the status of that moment. *)
Lemma is_instance_deployed_run env service instance sha w :
  expired w = false ->
  is_instance_deployed env service instance sha w =
    (deployed_status (status_instance env (now w) service instance) sha,
     mkWorld (now w) (alarm w) (trace w ++ [EvStatusInstance service instance])).
Proof.
  intro Hexp.
  unfold is_instance_deployed, fetch_status, bind, checkpoint, emit.
  rewrite Hexp. reflexivity.
Qed.

Lemma is_instance_deployed_expired env service instance sha w :
  expired w = true ->
  is_instance_deployed env service instance sha w = (Raise TimeoutError, w).
Proof.
  intro Hexp.
  unfold is_instance_deployed, fetch_status, bind, checkpoint.
  rewrite Hexp. reflexivity.
Qed.

(** The decision on a status that has workload data and an observed
    commit. *)
Lemma deployed_status_managed status m observed sha :
  marathon status = Some m ->
  git_sha status = Some observed ->
  deployed_status status sha =
    Ret (String.prefix observed sha
         && Py.eq_int (app_count m) (Some 1%Z)
         && Py.eq_str (deploy_status m) (Some "Running")
         && Py.eq_int (expected_instance_count m) (running_instance_count m)).
Proof.
  intros Hm Hg. unfold deployed_status. rewrite Hm, Hg. reflexivity.
Qed.

(** C9: an instance whose status has no workload-management data is ready,
    whatever the target commit and whatever else the status holds. *)
Theorem unmanaged_instance_is_ready :
  forall env service instance sha w,
    expired w = false ->
    marathon (status_instance env (now w) service instance) = None ->
    fst (is_instance_deployed env service instance sha w) = Ret true.
Proof.
  intros env service instance sha w Hexp Hm.
  rewrite is_instance_deployed_run by assumption.
  simpl. unfold deployed_status. now rewrite Hm.
Qed.

(** C1, as amended: for an instance with workload-management data the
    answer is true exactly when the observed commit is a prefix of the
    target commit, there is exactly one replica set, the deploy status is
    "Running" and the expected and running counts are equal; when the
    observed commit is there and one of the four fails, the answer is
    false. *)
Theorem is_instance_deployed_iff_four_conditions :
  forall env service instance sha w m,
    expired w = false ->
    marathon (status_instance env (now w) service instance) = Some m ->
    let status := status_instance env (now w) service instance in
    let answer := fst (is_instance_deployed env service instance sha w) in
    let conditions :=
      (exists observed,
          git_sha status = Some observed /\
          String.prefix observed sha = true) /\
      app_count m = Some 1%Z /\
      deploy_status m = Some "Running" /\
      expected_instance_count m = running_instance_count m in
    (answer = Ret true <-> conditions) /\
    (git_sha status <> None -> ~ conditions -> answer = Ret false).
Proof.
  intros env service instance sha w m Hexp Hm. cbv zeta.
  rewrite is_instance_deployed_run by assumption. simpl.
  set (status := status_instance env (now w) service instance) in *.
  destruct (git_sha status) as [observed|] eqn:Hg.
  - rewrite (deployed_status_managed status m observed sha Hm Hg).
    assert (Hiff :
      String.prefix observed sha
        && Py.eq_int (app_count m) (Some 1%Z)
        && Py.eq_str (deploy_status m) (Some "Running")
        && Py.eq_int (expected_instance_count m) (running_instance_count m)
        = true <->
      (exists o, Some observed = Some o /\ String.prefix o sha = true) /\
      app_count m = Some 1%Z /\
      deploy_status m = Some "Running" /\
      expected_instance_count m = running_instance_count m).
    { rewrite !andb_true_iff, !eq_int_true_iff, eq_str_true_iff.
      split.
      - intros [[[Hp Ha] Hd] He]. repeat split; try assumption.
        exists observed. split; [reflexivity | assumption].
      - intros [[o [Ho Hp]] [Ha [Hd He]]]. injection Ho as <-.
        repeat split; assumption. }
    split.
    + split.
      * intro H. injection H as H. now apply Hiff.
      * intro H. f_equal. now apply Hiff.
    + intros _ Hnot.
      destruct (String.prefix observed sha
        && Py.eq_int (app_count m) (Some 1%Z)
        && Py.eq_str (deploy_status m) (Some "Running")
        && Py.eq_int (expected_instance_count m) (running_instance_count m))
        eqn:Hb; [ | reflexivity ].
      exfalso. apply Hnot. now apply Hiff.
  - unfold deployed_status. rewrite Hm, Hg.
    split.
    + split; [ discriminate | ].
      intros [[o [Ho _]] _]. discriminate.
    + intros Habs. now contradiction Habs.
Qed.

Lemma unmanaged_instance_is_ready_witness :
  fst (is_instance_deployed
         (Fixtures.steady None ["main"] Fixtures.status_unmanaged)
         "example" "main" Fixtures.full_sha Fixtures.start) = Ret true.
Proof.
  apply unmanaged_instance_is_ready; reflexivity.
Defined.

(** C1, as stated, fails for a caller that passes an abbreviated commit:
    the target "abcdef" abbreviates the observed "abcdef12", there is one
    replica set, the status is "Running" and three of three instances run,
    yet the instance is not reported ready. *)
Lemma short_target_commit_not_ready :
  String.prefix "abcdef" "abcdef12" = true /\
  app_count Fixtures.converged = Some 1%Z /\
  deploy_status Fixtures.converged = Some "Running" /\
  expected_instance_count Fixtures.converged
    = running_instance_count Fixtures.converged /\
  fst (is_instance_deployed
         (Fixtures.steady None ["main"] Fixtures.status_converged)
         "example" "main" "abcdef" Fixtures.start) = Ret false.
Proof.
  repeat split.
Qed.

Lemma is_instance_deployed_iff_four_conditions_witness :
  fst (is_instance_deployed
         (Fixtures.steady None ["main"] Fixtures.status_converged)
         "example" "main" Fixtures.full_sha Fixtures.start) = Ret true.
Proof.
  apply (proj1 (is_instance_deployed_iff_four_conditions
           (Fixtures.steady None ["main"] Fixtures.status_converged)
           "example" "main" Fixtures.full_sha Fixtures.start
           Fixtures.converged eq_refl eq_refl)).
  simpl. repeat split.
  exists "abcdef12". split; reflexivity.
Defined.

(** C8, as stated, fails twice: a status without the observed commit makes
    the call raise, and a status without either replica count, the other
    three conditions holding, is answered true. *)
Lemma partial_status_counterexample :
  fst (is_instance_deployed
         (Fixtures.steady None ["main"] Fixtures.status_no_commit)
         "example" "main" Fixtures.full_sha Fixtures.start)
    = Raise TypeError /\
  fst (is_instance_deployed
         (Fixtures.steady None ["main"] Fixtures.status_no_counts)
         "example" "main" Fixtures.full_sha Fixtures.start)
    = Ret true.
Proof.
  split; reflexivity.
Qed.

(** C8, as amended: for an instance with workload-management data, a
    missing observed commit raises [TypeError]; with the commit there, a
    missing replica-set count, a missing deploy status or exactly one
    missing replica count gives false without an error; and two missing
    replica counts compare equal, which leaves the answer to the other
    three conditions. *)
Theorem partial_status_answer :
  forall env service instance sha w m,
    expired w = false ->
    marathon (status_instance env (now w) service instance) = Some m ->
    let status := status_instance env (now w) service instance in
    let answer := fst (is_instance_deployed env service instance sha w) in
    (git_sha status = None -> answer = Raise TypeError) /\
    (git_sha status <> None ->
     app_count m = None \/
     deploy_status m = None \/
     (expected_instance_count m = None /\
      running_instance_count m <> None) \/
     (expected_instance_count m <> None /\
      running_instance_count m = None) ->
     answer = Ret false) /\
    (forall observed,
        git_sha status = Some observed ->
        expected_instance_count m = None ->
        running_instance_count m = None ->
        answer = Ret (Py.startswith sha observed
                      && Py.eq_int (app_count m) (Some 1%Z)
                      && Py.eq_str (deploy_status m) (Some "Running"))).
Proof.
  intros env service instance sha w m Hexp Hm. cbv zeta.
  rewrite is_instance_deployed_run by assumption. simpl.
  set (status := status_instance env (now w) service instance) in *.
  split; [ | split ].
  - intro Hg. unfold deployed_status. now rewrite Hm, Hg.
  - intros Hg Hmissing.
    destruct (git_sha status) as [observed|] eqn:Hobs;
      [ | now contradiction Hg ].
    rewrite (deployed_status_managed status m observed sha Hm Hobs).
    f_equal.
    destruct Hmissing as [Ha | [Hd | [[He Hr] | [He Hr]]]].
    + rewrite Ha. simpl. now rewrite andb_false_r.
    + rewrite Hd. simpl. now rewrite andb_false_r.
    + rewrite He.
      destruct (running_instance_count m); [ | now contradiction Hr ].
      simpl. apply andb_false_r.
    + rewrite Hr.
      destruct (expected_instance_count m); [ | now contradiction He ].
      simpl. apply andb_false_r.
  - intros observed Hobs He Hr.
    rewrite (deployed_status_managed status m observed sha Hm Hobs).
    rewrite He, Hr. simpl. now rewrite andb_true_r.
Qed.

Lemma partial_status_answer_witness :
  fst (is_instance_deployed
         (Fixtures.steady None ["main"] Fixtures.status_no_commit)
         "example" "main" Fixtures.full_sha Fixtures.start)
    = Raise TypeError.
Proof.
  apply (proj1 (partial_status_answer
           (Fixtures.steady None ["main"] Fixtures.status_no_commit)
           "example" "main" Fixtures.full_sha Fixtures.start
           Fixtures.converged eq_refl eq_refl)).
  reflexivity.
Defined.

(* ================================================================= *)
(** ** Properties of the intent signal *)

Lemma split_not_nil sep s : Py.split sep s <> [].
Proof.
  destruct s as [|c rest]; simpl; [ discriminate | ].
  destruct (Ascii.eqb c sep); [ discriminate | ].
  destruct (Py.split sep rest); discriminate.
Qed.

(** Joining the pieces with the separator gives the string back. *)
Lemma join_split sep s : Py.join sep (Py.split sep s) = s.
Proof.
  unfold Py.join.
  induction s as [|c rest IH]; simpl; [ reflexivity | ].
  destruct (Ascii.eqb c sep) eqn:Hc.
  - apply Ascii.eqb_eq in Hc. subst c.
    destruct (Py.split sep rest) as [|piece pieces] eqn:Hs.
    + now apply split_not_nil in Hs.
    + simpl in *. now rewrite IH.
  - destruct (Py.split sep rest) as [|piece pieces] eqn:Hs.
    + now apply split_not_nil in Hs.
    + destruct pieces as [|q qs]; simpl in *; now rewrite IH.
Qed.

(** There is one more piece than there are separators. *)
Lemma length_split sep s :
  List.length (Py.split sep s) = S (Py.count sep s).
Proof.
  induction s as [|c rest IH]; simpl; [ reflexivity | ].
  destruct (Ascii.eqb c sep); simpl.
  - now rewrite IH.
  - destruct (Py.split sep rest) as [|piece pieces] eqn:Hs.
    + now apply split_not_nil in Hs.
    + simpl in *. assumption.
Qed.

(** No piece holds a separator. *)
Lemma split_pieces_clean sep s :
  Forall (fun piece => Py.count sep piece = 0) (Py.split sep s).
Proof.
  induction s as [|c rest IH]; simpl.
  - constructor; [ reflexivity | constructor ].
  - destruct (Ascii.eqb c sep) eqn:Hc.
    + constructor; [ reflexivity | assumption ].
    + destruct (Py.split sep rest) as [|piece pieces] eqn:Hs.
      * constructor; [ simpl; now rewrite Hc | constructor ].
      * inversion IH as [|? ? Hp Hps]; subst.
        constructor; [ simpl; now rewrite Hc | assumption ].
Qed.

Lemma log_all_run service lines w :
  log_all service lines w =
    (Ret tt, mkWorld (now w) (alarm w) (trace w ++ logged service lines)).
Proof.
  revert w. induction lines as [|line rest IH]; intro w; simpl.
  - unfold ret. rewrite app_nil_r. now destruct w.
  - unfold bind, _log, emit. rewrite IH. simpl.
    now rewrite <- app_assoc.
Qed.

(** C7, as stated, fails on two counts.  The value returned after a
    failed push is the bare code 1 and does not carry the cause: two pushes
    that fail for different causes return the same value.  And the lines
    logged are the pieces between line feeds, not the physical lines: a
    one-line message that ends in a line feed is logged as two lines after
    the header, the second one empty, and an empty message is logged as one
    empty line. *)
Lemma failure_code_and_lines_counterexample :
  "auth failed" <> "network down" /\
  fst (mark_for_deployment
         (Fixtures.steady (Some "auth failed") ["main"]
            Fixtures.status_converged)
         "git@git.example:services/example" "prod.main" "example"
         Fixtures.full_sha Fixtures.start)
  = fst (mark_for_deployment
           (Fixtures.steady (Some "network down") ["main"]
              Fixtures.status_converged)
           "git@git.example:services/example" "prod.main" "example"
           Fixtures.full_sha Fixtures.start) /\
  trace (snd (mark_for_deployment
                (Fixtures.steady (Some ("denied" ++ String Py.LF ""))
                   ["main"] Fixtures.status_converged)
                "git@git.example:services/example" "prod.main" "example"
                Fixtures.full_sha Fixtures.start))
  = [ EvCreateRemoteRefs "git@git.example:services/example"
        "refs/tags/paasta-prod.main-deploy" Fixtures.full_sha true
    ; EvLog "example" (failed_line Fixtures.full_sha "prod.main")
        "deploy" "event"
    ; EvLog "example" "denied" "deploy" "event"
    ; EvLog "example" "" "deploy" "event" ] /\
  trace (snd (mark_for_deployment
                (Fixtures.steady (Some "") ["main"]
                   Fixtures.status_converged)
                "git@git.example:services/example" "prod.main" "example"
                Fixtures.full_sha Fixtures.start))
  = [ EvCreateRemoteRefs "git@git.example:services/example"
        "refs/tags/paasta-prod.main-deploy" Fixtures.full_sha true
    ; EvLog "example" (failed_line Fixtures.full_sha "prod.main")
        "deploy" "event"
    ; EvLog "example" "" "deploy" "event" ].
Proof.
  split; [ discriminate | ]. repeat split.
Qed.

(** C7, as amended: the signal comes back with a return code whatever the
    push did.  After a push that went through it returns 0 and logs one
    line.  After a push that raised it returns the code 1, the same for
    every cause, and logs the header line followed by the pieces of the
    message between its line feeds: joined by line feeds they are the
    message again, there is one more of them than there are line feeds in
    it, and none of them holds a line feed. *)
Theorem mark_for_deployment_outcome :
  forall env git_url deploy_group service commit w,
    let ref :=
      format_tag env
        (get_paasta_tag_from_deploy_group env deploy_group "deploy") in
    let pushed := EvCreateRemoteRefs git_url ref commit true in
    (create_remote_refs env git_url ref commit = None ->
     mark_for_deployment env git_url deploy_group service commit w =
       (Ret 0%Z,
        mkWorld (now w) (alarm w)
          (trace w ++ pushed
             :: logged service [marked_line commit deploy_group]))) /\
    (forall cause,
        create_remote_refs env git_url ref commit = Some cause ->
        exists lines,
          mark_for_deployment env git_url deploy_group service commit w =
            (Ret 1%Z,
             mkWorld (now w) (alarm w)
               (trace w ++ pushed
                  :: logged service
                       (failed_line commit deploy_group :: lines))) /\
          Py.join Py.LF lines = cause /\
          List.length lines = S (Py.count Py.LF cause) /\
          Forall (fun line => Py.count Py.LF line = 0) lines).
Proof.
  intros env git_url deploy_group service commit w ref pushed.
  split.
  - intro Hpush. unfold mark_for_deployment. fold ref. rewrite Hpush.
    unfold bind at 1. unfold emit at 1. unfold bind at 1.
    rewrite log_all_run. simpl. unfold ret.
    now rewrite <- app_assoc.
  - intros cause Hpush. exists (Py.split Py.LF cause).
    split; [ | split; [ | split ] ].
    + unfold mark_for_deployment. fold ref. rewrite Hpush.
      unfold bind at 1. unfold emit at 1. unfold bind at 1.
      rewrite log_all_run. simpl. unfold ret.
      now rewrite <- app_assoc.
    + apply join_split.
    + apply length_split.
    + apply split_pieces_clean.
Qed.

Lemma mark_for_deployment_outcome_witness :
  exists lines,
    mark_for_deployment
      (Fixtures.steady (Some Fixtures.rejected) ["main"]
         Fixtures.status_converged)
      "git@git.example:services/example" "prod.main" "example"
      Fixtures.full_sha Fixtures.start =
      (Ret 1%Z,
       mkWorld 0 None
         (EvCreateRemoteRefs "git@git.example:services/example"
            "refs/tags/paasta-prod.main-deploy" Fixtures.full_sha true
          :: logged "example"
               (failed_line Fixtures.full_sha "prod.main" :: lines))) /\
    Py.join Py.LF lines = Fixtures.rejected /\
    List.length lines = 2 /\
    Forall (fun line => Py.count Py.LF line = 0) lines.
Proof.
  apply (proj2 (mark_for_deployment_outcome
           (Fixtures.steady (Some Fixtures.rejected) ["main"]
              Fixtures.status_converged)
           "git@git.example:services/example" "prod.main" "example"
           Fixtures.full_sha Fixtures.start)).
  reflexivity.
Defined.

(* ================================================================= *)
(** ** Properties of the waiter *)

(** C6: with no instance in the deploy group, the wait logs one line and
    raises [NoInstancesFound]; no status is requested, nothing sleeps, the
    clock stands still, and the fuel of the loop is not touched. *)
Theorem wait_for_deployment_no_instances :
  forall env fuel service deploy_group sha soa_dir timeout w,
    list_instances env service deploy_group = [] ->
    wait_for_deployment env fuel service deploy_group sha soa_dir timeout w
    = (Raise NoInstancesFound,
       mkWorld (now w) (alarm w)
         (trace w ++
            [ EvListInstances service deploy_group
            ; EvLog service (no_instances_line service deploy_group)
                "deploy" "event" ])).
Proof.
  intros env fuel service deploy_group sha soa_dir timeout w Hnone.
  unfold wait_for_deployment. rewrite Hnone.
  unfold bind, emit, _log, raise. simpl.
  now rewrite <- app_assoc.
Qed.

Lemma wait_for_deployment_no_instances_witness :
  wait_for_deployment
    (Fixtures.steady None [] Fixtures.status_converged)
    0 "example" "prod.main" Fixtures.full_sha "/nail/etc/services" 1200
    Fixtures.start
  = (Raise NoInstancesFound,
     mkWorld 0 None
       [ EvListInstances "example" "prod.main"
       ; EvLog "example"
           (no_instances_line "example" "prod.main") "deploy" "event" ]).
Proof.
  apply (wait_for_deployment_no_instances
           (Fixtures.steady None [] Fixtures.status_converged)
           0 "example" "prod.main" Fixtures.full_sha "/nail/etc/services"
           1200 Fixtures.start).
  reflexivity.
Defined.

Lemma expired_after w evs : expired (after w evs) = expired w.
Proof. reflexivity. Qed.

Lemma after_after w evs1 evs2 :
  after (after w evs1) evs2 = after w (evs1 ++ evs2).
Proof. unfold after. simpl. now rewrite <- app_assoc. Qed.

Lemma after_nil w : after w [] = w.
Proof. unfold after. rewrite app_nil_r. now destruct w. Qed.

(** A round of status requests with no alarm due, every status decidable:
    each instance is asked once, in order, and the answers are the
    decisions on the statuses of that moment. *)
Lemma deployed_each_run env service sha instances :
  forall w,
    expired w = false ->
    (forall i, In i instances ->
       exists b,
         deployed_status (status_instance env (now w) service i) sha
         = Ret b) ->
    exists bs,
      deployed_each env service instances sha w
        = (Ret bs, after w (polled service instances)) /\
      Forall2
        (fun i b =>
           deployed_status (status_instance env (now w) service i) sha
           = Ret b)
        instances bs.
Proof.
  induction instances as [|i rest IH]; intros w Hexp Hdec.
  - exists []. split; [ | constructor ].
    simpl. unfold ret. now rewrite after_nil.
  - destruct (Hdec i (or_introl eq_refl)) as [b Hb].
    destruct (IH (after w [EvStatusInstance service i])) as [bs [Hrun Hall]].
    + now rewrite expired_after.
    + intros j Hj. apply Hdec. now right.
    + exists (b :: bs). split.
      * simpl. unfold bind at 1.
        rewrite is_instance_deployed_run by assumption. rewrite Hb.
        unfold bind at 1. fold (after w [EvStatusInstance service i]).
        rewrite Hrun. unfold ret. now rewrite after_after.
      * constructor; assumption.
Qed.

Lemma all_false_of_member instances bs (P : string -> bool -> Prop) :
  Forall2 P instances bs ->
  (forall i b b', P i b -> P i b' -> b = b') ->
  (exists i, In i instances /\ P i false) ->
  all bs = false.
Proof.
  intros Hall Hfun [i [Hin Hi]].
  induction Hall as [|j b js bs' Hj Hrest IH]; [ contradiction | ].
  unfold all in *. simpl.
  destruct Hin as [-> | Hin].
  - rewrite (Hfun i b false Hj Hi). reflexivity.
  - rewrite (IH Hin). apply andb_false_r.
Qed.

Lemma polled_are_poll_events service instances :
  forallb is_poll_event (polled service instances) = true.
Proof. induction instances; simpl; auto. Qed.

(** With the alarm already due, the first status request raises. *)
Lemma deployed_each_expired env service sha i rest w :
  expired w = true ->
  deployed_each env service (i :: rest) sha w = (Raise TimeoutError, w).
Proof.
  intro Hexp. simpl. unfold bind at 1.
  now rewrite is_instance_deployed_expired.
Qed.

(** The loop under an alarm, the instances never all deployed: it ends
    with [TimeoutError] at the deadline (or at once when the deadline has
    passed), having only requested statuses and slept. *)
Lemma poll_loop_times_out env service sha instances deadline :
  instances <> [] ->
  never_all_deployed env service instances sha ->
  forall fuel w,
    alarm w = Some deadline ->
    (deadline - now w) / 10 < fuel ->
    exists evs,
      poll_loop env fuel service instances sha w
        = (Raise TimeoutError,
           mkWorld (Nat.max (now w) deadline) (Some deadline)
                   (trace w ++ evs)) /\
      forallb is_poll_event evs = true.
Proof.
  intros Hsome Hnever.
  induction fuel as [|fuel IH]; intros w Halarm Hfuel; [ lia | ].
  destruct instances as [|i rest]; [ now contradiction Hsome | ].
  destruct (expired w) eqn:Hexp.
  - exists []. split; [ | reflexivity ].
    cbn [poll_loop]. unfold bind at 1.
    rewrite deployed_each_expired by assumption.
    unfold expired in Hexp. rewrite Halarm in Hexp.
    apply Nat.leb_le in Hexp.
    rewrite Nat.max_l by assumption. rewrite app_nil_r.
    destruct w as [n a tr]. simpl in *. now subst a.
  - destruct (Hnever (now w)) as [Hdec Hlag].
    destruct (deployed_each_run env service sha (i :: rest) w Hexp Hdec)
      as [bs [Hrun Hall]].
    assert (Hall_false : all bs = false).
    { eapply all_false_of_member; [ exact Hall | | exact Hlag ].
      intros j b b' H1 H2. simpl in H1, H2. congruence. }
    unfold expired in Hexp. rewrite Halarm in Hexp.
    apply Nat.leb_gt in Hexp.
    cbn [poll_loop]. unfold bind at 1. rewrite Hrun, Hall_false.
    unfold bind at 1. unfold sleep. cbn [alarm after now trace].
    rewrite Halarm.
    destruct (Nat.leb deadline (now w + 10)) eqn:Hdue.
    + apply Nat.leb_le in Hdue.
      exists (polled service (i :: rest) ++ [EvSleep 10])%list. split.
      * repeat rewrite Nat.max_r by lia.
        now rewrite <- app_assoc.
      * rewrite forallb_app. simpl. rewrite andb_true_r.
        apply polled_are_poll_events.
    + apply Nat.leb_gt in Hdue.
      set (w1 := mkWorld (now w + 10) (Some deadline)
                   ((trace w ++ polled service (i :: rest))
                      ++ [EvSleep 10])).
      destruct (IH w1) as [evs [Hloop Hevs]]; [ reflexivity | | ].
      * unfold w1. cbn [now].
        replace (deadline - now w)
          with ((deadline - (now w + 10)) + 1 * 10) in Hfuel by lia.
        rewrite Nat.div_add in Hfuel by lia. lia.
      * exists (polled service (i :: rest) ++ EvSleep 10 :: evs)%list. split.
        -- rewrite Hloop. simpl.
           repeat rewrite Nat.max_r by lia.
           f_equal. f_equal. rewrite <- !app_assoc. reflexivity.
        -- rewrite forallb_app. simpl. rewrite Hevs, andb_true_r.
           apply polled_are_poll_events.
Qed.





(* ================================================================= *)
(** ** Properties of the command wrapper *)

Lemma grows_ret {A} (a : A) : grows (ret a).
Proof. intro w. exists []. simpl. now rewrite app_nil_r. Qed.

Lemma grows_raise {A} e : grows (@raise A e).
Proof. intro w. exists []. simpl. now rewrite app_nil_r. Qed.

Lemma grows_emit ev : grows (emit ev).
Proof. intro w. now exists [ev]. Qed.

Lemma grows_bind {A B} (m : M A) (k : A -> M B) :
  grows m -> (forall a, grows (k a)) -> grows (bind m k).
Proof.
  intros Hm Hk w. unfold bind.
  destruct (Hm w) as [evs Hevs].
  destruct (m w) as [[a|e|] w1]; simpl in *.
  - destruct (Hk a w1) as [evs' Hevs'].
    exists (evs ++ evs')%list. rewrite Hevs', Hevs. now rewrite app_assoc.
  - now exists evs.
  - now exists evs.
Qed.

Lemma grows_try_except {A} (m : M A) catches handler :
  grows m -> (forall e, grows (handler e)) ->
  grows (try_except m catches handler).
Proof.
  intros Hm Hh w. unfold try_except.
  destruct (Hm w) as [evs Hevs].
  destruct (m w) as [[a|e|] w1]; simpl in *.
  - now exists evs.
  - destruct (catches e).
    + destruct (Hh e w1) as [evs' Hevs'].
      exists (evs ++ evs')%list. rewrite Hevs', Hevs. now rewrite app_assoc.
    + now exists evs.
  - now exists evs.
Qed.

Lemma grows_with_Timeout {A} seconds (m : M A) :
  grows m -> grows (with_Timeout seconds m).
Proof.
  intros Hm w. unfold with_Timeout.
  destruct (Hm (mkWorld (now w) (Some (now w + seconds)) (trace w)))
    as [evs Hevs].
  destruct (m _) as [r w1]. simpl in *. now exists evs.
Qed.

Lemma grows_sleep seconds : grows (sleep seconds).
Proof.
  intro w. exists [EvSleep seconds]. unfold sleep.
  destruct (alarm w) as [deadline|]; [ | reflexivity ].
  destruct (Nat.leb deadline (now w + seconds)); reflexivity.
Qed.

Lemma grows_is_instance_deployed env service instance sha :
  grows (is_instance_deployed env service instance sha).
Proof.
  intro w. destruct (expired w) eqn:Hexp.
  - rewrite is_instance_deployed_expired by assumption.
    exists []. simpl. now rewrite app_nil_r.
  - rewrite is_instance_deployed_run by assumption.
    now exists [EvStatusInstance service instance].
Qed.

Lemma grows_deployed_each env service instances sha :
  grows (deployed_each env service instances sha).
Proof.
  induction instances as [|i rest IH]; simpl.
  - apply grows_ret.
  - apply grows_bind; [ apply grows_is_instance_deployed | intro b ].
    apply grows_bind; [ exact IH | intro bs; apply grows_ret ].
Qed.

Lemma grows_poll_loop env fuel service instances sha :
  grows (poll_loop env fuel service instances sha).
Proof.
  induction fuel as [|fuel IH]; simpl.
  - intro w. exists []. simpl. now rewrite app_nil_r.
  - apply grows_bind; [ apply grows_deployed_each | intro bs ].
    destruct (all bs); [ apply grows_ret | ].
    apply grows_bind; [ apply grows_sleep | intros _; exact IH ].
Qed.

(** The first thing the wait does is to ask for the instances of the
    service it was given. *)
Lemma wait_for_deployment_asks_first
    env fuel service deploy_group sha soa_dir timeout w :
  exists later,
    trace (snd (wait_for_deployment env fuel service deploy_group sha
                  soa_dir timeout w))
    = (trace w ++ EvListInstances service deploy_group :: later)%list.
Proof.
  unfold wait_for_deployment. unfold bind at 1. unfold emit at 1.
  set (w1 := mkWorld (now w) (alarm w)
               (trace w ++ [EvListInstances service deploy_group])).
  assert (Hrest : forall m : M unit, grows m ->
            exists later,
              trace (snd (m w1))
              = (trace w ++ EvListInstances service deploy_group
                   :: later)%list).
  { intros m Hm. destruct (Hm w1) as [evs Hevs]. exists evs.
    rewrite Hevs. unfold w1. simpl. now rewrite <- app_assoc. }
  destruct (list_instances env service deploy_group) as [|i rest].
  - apply Hrest.
    apply grows_bind; [ apply grows_emit | intros _; apply grows_raise ].
  - apply Hrest. apply grows_try_except.
    + apply grows_with_Timeout, grows_poll_loop.
    + intro e.
      apply grows_bind; [ apply grows_emit | intros _; apply grows_raise ].
Qed.

Lemma substring_whole s : String.substring 0 (String.length s) s = s.
Proof. induction s as [|c s IH]; simpl; [ reflexivity | now rewrite IH ]. Qed.

Lemma prefix_append a b : String.prefix a (a ++ b) = true.
Proof.
  induction a as [|c a IH]; simpl; [ now destruct b | ].
  destruct (ascii_dec c c) as [_|Hne]; [ exact IH | now contradiction Hne ].
Qed.

Lemma length_append a b :
  String.length (a ++ b) = String.length a + String.length b.
Proof. induction a as [|c a IH]; simpl; [ reflexivity | now rewrite IH ]. Qed.

Lemma substring_skip a b n :
  String.substring (String.length a) n (a ++ b) = String.substring 0 n b.
Proof. induction a as [|c a IH]; simpl; [ reflexivity | exact IH ]. Qed.

(** A string that starts with a non-empty separator splits at position 0:
    the first piece is empty and the second is what follows. *)
Lemma split_once_prefixed sep rest :
  sep <> "" ->
  Py.split_once sep (sep ++ rest) = [""; rest].
Proof.
  intro Hsep. unfold Py.split_once.
  assert (Hindex : String.index 0 sep (sep ++ rest) = Some 0).
  { destruct sep as [|c sep']; [ now contradiction Hsep | ].
    change (String c sep' ++ rest) with (String c (sep' ++ rest)).
    cbn [String.index].
    change (String c (sep' ++ rest)) with (String c sep' ++ rest).
    now rewrite prefix_append. }
  rewrite Hindex. cbn [Nat.add].
  rewrite substring_skip, length_append.
  replace (String.length sep + String.length rest - String.length sep)
    with (String.length rest) by lia.
  rewrite substring_whole.
  f_equal. destruct (sep ++ rest); reflexivity.
Qed.

(** Splitting once at the prefix and taking the second piece leaves what
    follows the prefix. *)
Lemma strip_services_prefixed rest :
  strip_services ("services-" ++ rest) = ret rest.
Proof.
  unfold strip_services.
  rewrite split_once_prefixed by discriminate. reflexivity.
Qed.

Lemma mark_for_deployment_run env git_url deploy_group service commit :
  exists code lines,
    forall w,
      mark_for_deployment env git_url deploy_group service commit w
      = (Ret code,
         after w
           (EvCreateRemoteRefs git_url
              (format_tag env
                 (get_paasta_tag_from_deploy_group env deploy_group
                    "deploy"))
              commit true
            :: logged service lines)).
Proof.
  unfold mark_for_deployment.
  destruct (create_remote_refs env git_url _ commit) as [cause|].
  - exists 1%Z, (failed_line commit deploy_group :: Py.split Py.LF cause).
    intro w. unfold bind at 1. unfold emit at 1. unfold bind at 1.
    rewrite log_all_run. unfold ret, after. simpl.
    now rewrite <- app_assoc.
  - exists 0%Z, [marked_line commit deploy_group].
    intro w. unfold bind at 1. unfold emit at 1. unfold bind at 1.
    rewrite log_all_run. unfold ret, after. simpl.
    now rewrite <- app_assoc.
Qed.

(** C10: when the service argument is "services-" followed by [rest],
    validation is asked about [rest] and the signal is sent and logged
    under [rest], whereas the wait, when one is asked for, gets the
    argument as it was given, prefix included: its first request is for
    the instances of "services-[rest]".  The two names differ. *)
Theorem wrapper_service_names :
  forall env fuel args rest w,
    args_service args = "services-" ++ rest ->
    let soa_dir := args_soa_dir args in
    let deploy_group := args_deploy_group args in
    let commit := args_commit args in
    let validated := after w [EvValidate rest soa_dir] in
    rest <> args_service args /\
    (validate_service_name env rest soa_dir = false ->
     paasta_mark_for_deployment env fuel args w
     = (Raise NoSuchService, validated)) /\
    (validate_service_name env rest soa_dir = true ->
     exists code lines,
       let signalled :=
         after validated
           (EvCreateRemoteRefs (args_git_url args)
              (format_tag env
                 (get_paasta_tag_from_deploy_group env deploy_group
                    "deploy"))
              commit true
            :: logged rest lines) in
       mark_for_deployment env (args_git_url args) deploy_group rest
         commit validated = (Ret code, signalled) /\
       (args_block args = false ->
        paasta_mark_for_deployment env fuel args w = (Ret code, signalled)) /\
       (args_block args = true ->
        let waiting :=
          after signalled
            [EvLog rest (waiting_line commit deploy_group)
               "deploy" "event"] in
        let waited :=
          wait_for_deployment env fuel (args_service args) deploy_group
            commit soa_dir (args_timeout args) waiting in
        (exists later,
            trace (snd waited)
            = (trace waiting
                 ++ EvListInstances (args_service args) deploy_group
                 :: later)%list) /\
        paasta_mark_for_deployment env fuel args w =
          match fst waited with
          | Ret _ =>
              (Ret code,
               after (snd waited)
                 [EvLog rest (complete_line commit deploy_group)
                    "deploy" "event"])
          | Raise TimeoutError => (Raise (SystemExit 1), snd waited)
          | Raise e => (Raise e, snd waited)
          | OutOfFuel => (OutOfFuel, snd waited)
          end)).
Proof.
  intros env fuel args rest w Hservice. cbv zeta.
  assert (Hstrip :
    (if negb (String.eqb (args_service args) "")
        && Py.startswith (args_service args) "services-"
     then strip_services (args_service args)
     else ret (args_service args)) = ret rest).
  { rewrite Hservice. unfold Py.startswith. rewrite prefix_append.
    rewrite strip_services_prefixed. reflexivity. }
  split; [ | split ].
  - rewrite Hservice. intro Heq.
    apply (f_equal String.length) in Heq.
    rewrite length_append in Heq. simpl in Heq. lia.
  - intro Hinvalid. unfold paasta_mark_for_deployment.
    rewrite Hstrip. unfold bind at 1. unfold ret at 1.
    unfold bind at 1. unfold emit at 1.
    unfold bind at 1. rewrite Hinvalid. reflexivity.
  - intro Hvalid.
    destruct (mark_for_deployment_run env (args_git_url args)
                (args_deploy_group args) rest (args_commit args))
      as [code [lines Hmark]].
    exists code, lines. split; [ apply Hmark | split ].
    + intro Hblock. unfold paasta_mark_for_deployment.
      rewrite Hstrip. unfold bind at 1. unfold ret at 1.
      unfold bind at 1. unfold emit at 1.
      unfold bind at 1. rewrite Hvalid. unfold ret at 1.
      unfold bind at 1.
      fold (after w [EvValidate rest (args_soa_dir args)]).
      rewrite Hmark, Hblock. reflexivity.
    + intro Hblock. split; [ apply wait_for_deployment_asks_first | ].
      unfold paasta_mark_for_deployment.
      rewrite Hstrip. unfold bind at 1. unfold ret at 1.
      unfold bind at 1. unfold emit at 1.
      unfold bind at 1. rewrite Hvalid. unfold ret at 1.
      unfold bind at 1.
      fold (after w [EvValidate rest (args_soa_dir args)]).
      rewrite Hmark, Hblock.
      unfold bind at 1. unfold try_except.
      unfold bind at 1. unfold _log at 1. unfold emit at 1.
      match goal with
      | |- context [mkWorld (now ?x) (alarm ?x) (trace ?x ++ ?l)] =>
          change (mkWorld (now x) (alarm x) (trace x ++ l)) with (after x l)
      end.
      match goal with
      | |- context [wait_for_deployment _ _ _ _ _ _ _ ?x] =>
          set (waiting := x)
      end.
      unfold bind at 1.
      destruct (wait_for_deployment env fuel (args_service args)
                  (args_deploy_group args) (args_commit args)
                  (args_soa_dir args) (args_timeout args) waiting)
        as [[[]|e|] w4]; cbn [fst snd].
      * unfold _log, emit, ret, after. reflexivity.
      * destruct e; reflexivity.
      * reflexivity.
Qed.

Lemma wrapper_service_names_witness :
  args_service Fixtures.blocking_args = "services-" ++ "example" /\
  "example" <> args_service Fixtures.blocking_args.
Proof.
  split; [ reflexivity | ].
  exact (proj1 (wrapper_service_names
                  (Fixtures.steady None ["main"] Fixtures.status_scaling_up)
                  3 Fixtures.blocking_args "example" Fixtures.start
                  eq_refl)).
Defined.

(** The wrapper run on "services-example" with the wait asked for: the
    signal is validated and logged under "example", the instances and the
    statuses are asked for under "services-example". *)
Example wrapper_run_services_example :
  paasta_mark_for_deployment
    (Fixtures.steady None ["main"] Fixtures.status_converged)
    3 Fixtures.blocking_args Fixtures.start
  = (Ret 0%Z,
     mkWorld 0 None
       [ EvValidate "example" "/nail/etc/services"
       ; EvCreateRemoteRefs "git@git.example:services/example"
           "refs/tags/paasta-prod.main-deploy" Fixtures.full_sha true
       ; EvLog "example" (marked_line Fixtures.full_sha "prod.main")
           "deploy" "event"
       ; EvLog "example" (waiting_line Fixtures.full_sha "prod.main")
           "deploy" "event"
       ; EvListInstances "services-example" "prod.main"
       ; EvStatusInstance "services-example" "main"
       ; EvLog "example" (complete_line Fixtures.full_sha "prod.main")
           "deploy" "event" ]).
Proof. reflexivity. Qed.

(* ================================================================= *)
(** ** Properties of the reconcilers *)

Module ReconcilerFacts.
Import ControllerWrappers.

Lemma skipn_past {A} (l extra : list A) :
  skipn (List.length l) (l ++ extra) = extra.
Proof. induction l as [|x l IH]; simpl; [ reflexivity | exact IH ]. Qed.

Lemma new_calls_none k : new_calls k k = [].
Proof.
  unfold new_calls. rewrite <- (app_nil_r (calls k)) at 2.
  apply skipn_past.
Qed.

(** C2: the autoscaler sync by policy and live state.  Bespoke: no call.
    Absent with a live autoscaler: one delete, no create, no patch.
    Managed with none live: one create carrying the computed spec.
    Managed with one live: one patch carrying the computed spec, no
    create.  In each case the list of calls made is given in full. *)
Theorem sync_autoscaler_cases :
  forall get_spec kube_client app k,
    let name := app_name app in
    let namespace := app_namespace app in
    let body := get_spec (soa_config app) name namespace in
    let issued :=
      new_calls k
        (snd (sync_horizontal_pod_autoscaler get_spec kube_client app k)) in
    (autoscaling (soa_config app) = PolicyBespoke ->
     issued = [] /\ hpa_counts issued = (0, 0, 0)) /\
    (autoscaling (soa_config app) = PolicyAbsent ->
     live_hpa k <> None ->
     issued = [(kube_client, DeleteHPA namespace name)] /\
     hpa_counts issued = (0, 0, 1)) /\
    (autoscaling (soa_config app) = PolicyManaged ->
     live_hpa k = None ->
     issued = [(kube_client, CreateHPA namespace body)] /\
     hpa_counts issued = (1, 0, 0)) /\
    (autoscaling (soa_config app) = PolicyManaged ->
     live_hpa k <> None ->
     issued = [(kube_client, PatchHPA namespace name body)] /\
     hpa_counts issued = (0, 1, 0)).
Proof.
  intros get_spec kube_client app k. cbv zeta.
  unfold sync_horizontal_pod_autoscaler.
  assert (Hone : forall h call,
            new_calls k (set_hpa h (record_call kube_client call k))
            = [(kube_client, call)]).
  { intros h call. unfold new_calls, set_hpa, record_call. cbn [calls].
    apply skipn_past. }
  split; [ | split; [ | split ] ].
  - intro Hpolicy. rewrite Hpolicy. cbn [snd].
    rewrite new_calls_none. split; reflexivity.
  - intros Hpolicy Hlive. rewrite Hpolicy.
    destruct (live_hpa k) as [h|]; [ | now contradiction Hlive ].
    cbn [snd]. rewrite Hone. split; reflexivity.
  - intros Hpolicy Hlive. rewrite Hpolicy, Hlive.
    cbn [snd]. rewrite Hone. split; reflexivity.
  - intros Hpolicy Hlive. rewrite Hpolicy.
    destruct (live_hpa k) as [h|]; [ | now contradiction Hlive ].
    cbn [snd]. rewrite Hone. split; reflexivity.
Qed.

Lemma sync_autoscaler_cases_witness :
  new_calls
    (Fixtures.cluster_with None None)
    (snd (sync_horizontal_pod_autoscaler Fixtures.metric_spec 0
            (Fixtures.fake_app "rolling" PolicyManaged)
            (Fixtures.cluster_with None None)))
  = [(0, CreateHPA "faasta" (mkHpa 1 3 ["cpu"]))].
Proof.
  exact (proj1 (proj1 (proj2 (proj2
           (sync_autoscaler_cases Fixtures.metric_spec 0
              (Fixtures.fake_app "rolling" PolicyManaged)
              (Fixtures.cluster_with None None))))
           eq_refl eq_refl)).
Defined.

(** C3: the disruption-budget sync when the read itself works.  With no
    live budget (the read answers 404) it reads and then creates once with
    the computed budget.  With a live budget, whatever its
    maximum-unavailable value, the computed one included, it reads and
    then patches once with the computed budget.  Either way the live
    budget ends up being the computed one. *)
Theorem ensure_pod_disruption_budget_cases :
  forall max_unavailable_for kube_client app k,
    pdb_read_fault k = None ->
    let pdr := pod_disruption_budget_for max_unavailable_for app in
    let read := (kube_client, ReadPDB (app_namespace app) (app_name app)) in
    let run := ensure_pod_disruption_budget max_unavailable_for
                 kube_client app k in
    let issued := new_calls k (snd run) in
    pdb_max_unavailable pdr
      = max_unavailable_for (bounce_margin_percent (soa_config app))
                            (instances (soa_config app)) /\
    (live_pdb k = None ->
     fst (read_pod_disruption_budget kube_client app k)
       = KApiException 404%Z /\
     fst run = KRet tt /\
     issued = [read; (kube_client, CreatePDB "paasta" pdr)] /\
     pdb_counts issued = (1, 0) /\
     live_pdb (snd run) = Some pdr) /\
    (forall existing,
        live_pdb k = Some existing ->
        fst run = KRet tt /\
        issued =
          [read;
           (kube_client,
            PatchPDB (pdb_namespace pdr) (pdb_name pdr) pdr)] /\
        pdb_counts issued = (0, 1) /\
        live_pdb (snd run) = Some pdr).
Proof.
  intros max_unavailable_for kube_client app k Hfault. cbv zeta.
  split; [ reflexivity | ].
  unfold ensure_pod_disruption_budget, read_pod_disruption_budget.
  rewrite Hfault.
  split.
  - intro Hlive. rewrite Hlive. cbn [fst snd Z.eqb Pos.eqb].
    repeat split.
    + unfold new_calls, set_pdb, record_call. cbn [calls].
      rewrite <- app_assoc. now rewrite skipn_past.
    + unfold new_calls, set_pdb, record_call. cbn [calls].
      rewrite <- app_assoc. now rewrite skipn_past.
  - intros existing Hlive. rewrite Hlive. cbn [fst snd].
    repeat split.
    + unfold new_calls, set_pdb, record_call. cbn [calls].
      rewrite <- app_assoc. now rewrite skipn_past.
    + unfold new_calls, set_pdb, record_call. cbn [calls].
      rewrite <- app_assoc. now rewrite skipn_past.
Qed.

Lemma ensure_pod_disruption_budget_cases_witness :
  new_calls
    (Fixtures.cluster_with None (Some Fixtures.outdated_budget))
    (snd (ensure_pod_disruption_budget Fixtures.ten_unavailable 0
            (Fixtures.fake_app "rolling" PolicyAbsent)
            (Fixtures.cluster_with None (Some Fixtures.outdated_budget))))
  = [ (0, ReadPDB "faasta" "fake_name")
    ; (0, PatchPDB "faasta" "fake_name" (mkPdb "fake_name" "faasta" 10)) ].
Proof.
  exact (proj1 (proj2 (proj2 (proj2
           (ensure_pod_disruption_budget_cases Fixtures.ten_unavailable 0
              (Fixtures.fake_app "rolling" PolicyAbsent)
              (Fixtures.cluster_with None (Some Fixtures.outdated_budget))
              eq_refl))
           Fixtures.outdated_budget eq_refl))).
Defined.

(** C4: an update with bounce method "brutal" builds one new client,
    which is none of the clients built before and so not the caller's,
    hands one delete-then-create unit with that client to a worker, and
    returns with no cluster call made yet; when the worker runs the unit,
    the delete and then the create go through the new client.  An update
    with bounce method "rolling" launches nothing and makes the one
    update call through the caller's client. *)
Theorem update_by_bounce_method :
  forall kube_client app k,
    kube_client < next_client k ->
    let run := update kube_client app k in
    (bounce_method (soa_config app) = "brutal" ->
     exists fresh,
       fst run = KRet tt /\
       background (snd run) = (background k ++ [mkUnit app fresh])%list /\
       fresh <> kube_client /\
       (forall older, older < next_client k -> fresh <> older) /\
       calls (snd run) = calls k /\
       new_calls k (deep_delete_and_create (mkUnit app fresh) (snd run))
       = [ (fresh, DeleteDeployment (app_namespace app) (app_name app))
         ; (fresh, CreateDeployment (app_namespace app) (app_name app)) ]) /\
    (bounce_method (soa_config app) = "rolling" ->
     fst run = KRet tt /\
     background (snd run) = background k /\
     new_calls k (snd run)
     = [(kube_client,
         UpdateDeployment (app_namespace app) (app_name app))]).
Proof.
  intros kube_client app k Holder. cbv zeta. unfold update. split.
  - intro Hmethod. rewrite Hmethod. cbn [String.eqb Ascii.eqb Bool.eqb].
    exists (next_client k). unfold new_KubeClient, launch.
    cbn [fst snd background calls next_client live_hpa live_pdb
         pdb_read_fault].
    split; [ reflexivity | ]. split; [ reflexivity | ].
    split; [ lia | ]. split; [ intros older Hlt; lia | ].
    split; [ reflexivity | ].
    unfold new_calls, deep_delete_and_create, record_call.
    cbn [calls unit_client unit_target].
    rewrite <- app_assoc. now rewrite skipn_past.
  - intro Hmethod. rewrite Hmethod. cbn [String.eqb Ascii.eqb Bool.eqb].
    cbn [fst snd]. split; [ reflexivity | ]. split; [ reflexivity | ].
    unfold new_calls, record_call. cbn [calls]. now rewrite skipn_past.
Qed.

Lemma update_by_bounce_method_witness :
  exists fresh,
    fst (update 0 (Fixtures.fake_app "brutal" PolicyAbsent)
           (Fixtures.cluster_with None None)) = KRet tt /\
    background (snd (update 0 (Fixtures.fake_app "brutal" PolicyAbsent)
                       (Fixtures.cluster_with None None)))
    = [mkUnit (Fixtures.fake_app "brutal" PolicyAbsent) fresh] /\
    fresh <> 0.
Proof.
  destruct (proj1 (update_by_bounce_method 0
                     (Fixtures.fake_app "brutal" PolicyAbsent)
                     (Fixtures.cluster_with None None)
                     (Nat.lt_0_succ 0))
              eq_refl)
    as [fresh [Hret [Hbg [Hfresh _]]]].
  exists fresh. repeat split; assumption.
Defined.

End ReconcilerFacts.

(* ================================================================= *)
(** ** Further properties of the readiness oracle *)

Lemma prefix_length a s :
  String.prefix a s = true -> String.length a <= String.length s.
Proof.
  revert s. induction a as [|c a IH]; intros s H; simpl; [ lia | ].
  destruct s as [|b s]; simpl in H; [ discriminate | ].
  destruct (ascii_dec c b); [ | discriminate ].
  simpl. apply IH in H. lia.
Qed.

Lemma prefix_extend a s more :
  String.prefix a s = true -> String.prefix a (s ++ more) = true.
Proof.
  revert s. induction a as [|c a IH]; intros s H.
  - now destruct (s ++ more).
  - destruct s as [|b s]; simpl in H; [ discriminate | ].
    simpl. destruct (ascii_dec c b); [ now apply IH | discriminate ].
Qed.

Lemma prefix_empty s : String.prefix "" s = true.
Proof. now destruct s. Qed.

(** X1: an instance found deployed for a target commit is found deployed
    for every longer target that starts with it. *)
Theorem deployed_for_longer_target :
  forall env service instance sha more w,
    expired w = false ->
    fst (is_instance_deployed env service instance sha w) = Ret true ->
    fst (is_instance_deployed env service instance (sha ++ more) w)
    = Ret true.
Proof.
  intros env service instance sha more w Hexp.
  rewrite !is_instance_deployed_run by assumption. cbn [fst].
  unfold deployed_status.
  destruct (marathon _) as [m|]; [ | trivial ].
  destruct (git_sha _) as [observed|]; [ | discriminate ].
  intro H. injection H as H. f_equal.
  rewrite !andb_true_iff in *.
  destruct H as [[[Hp Ha] Hd] He]. repeat split; try assumption.
  unfold Py.startswith in *. now apply prefix_extend.
Qed.

Lemma deployed_for_longer_target_witness :
  fst (is_instance_deployed
         (Fixtures.steady None ["main"] Fixtures.status_converged)
         "example" "main" ("abcdef12" ++ "34567890") Fixtures.start)
  = Ret true.
Proof.
  apply (deployed_for_longer_target
           (Fixtures.steady None ["main"] Fixtures.status_converged)
           "example" "main" "abcdef12" "34567890" Fixtures.start);
    reflexivity.
Defined.

(** X2: a target commit shorter than the observed commit is never found
    deployed: with workload data and an observed commit longer than the
    target, the answer is false whatever the other fields hold. *)
Theorem shorter_target_never_deployed :
  forall env service instance sha w m observed,
    expired w = false ->
    marathon (status_instance env (now w) service instance) = Some m ->
    git_sha (status_instance env (now w) service instance)
      = Some observed ->
    String.length sha < String.length observed ->
    fst (is_instance_deployed env service instance sha w) = Ret false.
Proof.
  intros env service instance sha w m observed Hexp Hm Hg Hlen.
  rewrite is_instance_deployed_run by assumption. cbn [fst].
  rewrite (deployed_status_managed _ m observed sha Hm Hg).
  destruct (String.prefix observed sha) eqn:Hp; [ | reflexivity ].
  apply prefix_length in Hp. lia.
Qed.

Lemma shorter_target_never_deployed_witness :
  fst (is_instance_deployed
         (Fixtures.steady None ["main"] Fixtures.status_converged)
         "example" "main" "abcdef1" Fixtures.start)
  = Ret false.
Proof.
  apply (shorter_target_never_deployed
           (Fixtures.steady None ["main"] Fixtures.status_converged)
           "example" "main" "abcdef1" Fixtures.start
           Fixtures.converged "abcdef12");
    try reflexivity.
  simpl. lia.
Defined.

(** X3: an observed commit that is the empty string matches every target:
    the answer is then decided by the replica-set count, the deploy status
    and the replica counts alone. *)
Theorem empty_observed_commit_matches_all :
  forall env service instance sha w m,
    expired w = false ->
    marathon (status_instance env (now w) service instance) = Some m ->
    git_sha (status_instance env (now w) service instance) = Some "" ->
    fst (is_instance_deployed env service instance sha w)
    = Ret (Py.eq_int (app_count m) (Some 1%Z)
           && Py.eq_str (deploy_status m) (Some "Running")
           && Py.eq_int (expected_instance_count m)
                        (running_instance_count m)).
Proof.
  intros env service instance sha w m Hexp Hm Hg.
  rewrite is_instance_deployed_run by assumption. cbn [fst].
  rewrite (deployed_status_managed _ m "" sha Hm Hg).
  now rewrite prefix_empty.
Qed.

Lemma empty_observed_commit_matches_all_witness :
  fst (is_instance_deployed
         (Fixtures.steady None ["main"]
            (mkInstanceStatus (Some "") (Some Fixtures.converged)))
         "example" "main" Fixtures.full_sha Fixtures.start)
  = Ret true.
Proof.
  apply (empty_observed_commit_matches_all
           (Fixtures.steady None ["main"]
              (mkInstanceStatus (Some "") (Some Fixtures.converged)))
           "example" "main" Fixtures.full_sha Fixtures.start
           Fixtures.converged);
    reflexivity.
Defined.



(* ================================================================= *)
(** ** Further properties of the waiter *)

Lemma all_true_of_each instances bs (P : string -> bool -> Prop) :
  Forall2 P instances bs ->
  (forall i b b', P i b -> P i b' -> b = b') ->
  (forall i, In i instances -> P i true) ->
  all bs = true.
Proof.
  intros Hall Hfun Hevery.
  induction Hall as [|j b js bs' Hj Hrest IH]; [ reflexivity | ].
  unfold all in *. simpl.
  rewrite (Hfun j b true Hj (Hevery j (or_introl eq_refl))).
  simpl. apply IH. intros i Hi. apply Hevery. now right.
Qed.

Lemma rounds_succ service instances k :
  rounds service instances (S k)
  = (polled service instances ++ EvSleep 10
       :: rounds service instances k)%list.
Proof. unfold rounds. simpl. now rewrite <- app_assoc. Qed.

(** The loop under an alarm that is far enough away: [k] rounds find some
    instance lagging, the next one finds all deployed, and the loop
    returns then. *)
Lemma poll_loop_converges env service sha instances deadline :
  forall k fuel w,
    alarm w = Some deadline ->
    now w + 10 * k < deadline ->
    k < fuel ->
    (forall j, j < k ->
       lagging_at env (now w + 10 * j) service instances sha) ->
    all_deployed_at env (now w + 10 * k) service instances sha ->
    poll_loop env fuel service instances sha w
    = (Ret tt,
       mkWorld (now w + 10 * k) (Some deadline)
         (trace w ++ rounds service instances k
            ++ polled service instances)).
Proof.
  induction k as [|k IH]; intros fuel w Halarm Hfar Hfuel Hlag Hall;
    (destruct fuel as [|fuel]; [ lia | ]);
    assert (Hexp : expired w = false)
      by (unfold expired; rewrite Halarm; apply Nat.leb_gt; lia).
  - rewrite Nat.mul_0_r, Nat.add_0_r in *.
    destruct (deployed_each_run env service sha instances w Hexp)
      as [bs [Hrun Hans]].
    { intros i Hi. exists true. now apply Hall. }
    assert (Hbs : all bs = true).
    { eapply all_true_of_each; [ exact Hans | | exact Hall ].
      intros j b b' H1 H2. simpl in H1, H2. congruence. }
    cbn [poll_loop]. unfold bind at 1. rewrite Hrun, Hbs.
    unfold ret, after, rounds. simpl.
    destruct w as [n a tr]. simpl in *. now subst a.
  - destruct (Hlag 0) as [Hdec Hsome]; [ lia | ].
    rewrite Nat.mul_0_r, Nat.add_0_r in Hdec, Hsome.
    destruct (deployed_each_run env service sha instances w Hexp Hdec)
      as [bs [Hrun Hans]].
    assert (Hbs : all bs = false).
    { eapply all_false_of_member; [ exact Hans | | exact Hsome ].
      intros j b b' H1 H2. simpl in H1, H2. congruence. }
    cbn [poll_loop]. unfold bind at 1. rewrite Hrun, Hbs.
    unfold bind at 1. unfold sleep. cbn [alarm after now trace].
    rewrite Halarm.
    destruct (Nat.leb deadline (now w + 10)) eqn:Hdue;
      [ apply Nat.leb_le in Hdue; lia | ].
    set (w1 := mkWorld (now w + 10) (Some deadline)
                 ((trace w ++ polled service instances)
                    ++ [EvSleep 10])).
    rewrite (IH fuel w1); unfold w1; cbn [now alarm trace];
      try reflexivity; try lia.
    + f_equal. f_equal; [ lia | ].
      rewrite rounds_succ. rewrite <- !app_assoc. reflexivity.
    + intros j Hj.
      replace (now w + 10 + 10 * j) with (now w + 10 * S j) by lia.
      apply Hlag. lia.
    + replace (now w + 10 + 10 * k) with (now w + 10 * S k) by lia.
      exact Hall.
Qed.

Lemma wait_for_deployment_converges_run :
  forall env fuel service deploy_group sha soa_dir timeout k w,
    list_instances env service deploy_group <> [] ->
    10 * k < timeout ->
    k < fuel ->
    (forall j, j < k ->
       lagging_at env (now w + 10 * j) service
         (list_instances env service deploy_group) sha) ->
    all_deployed_at env (now w + 10 * k) service
      (list_instances env service deploy_group) sha ->
    wait_for_deployment env fuel service deploy_group sha soa_dir timeout w
    = (Ret tt,
       mkWorld (now w + 10 * k) None
         (trace w ++ EvListInstances service deploy_group
            :: rounds service (list_instances env service deploy_group) k
            ++ polled service (list_instances env service deploy_group))).
Proof.
  intros env fuel service deploy_group sha soa_dir timeout k w
         Hsome Hfar Hfuel Hlag Hall.
  unfold wait_for_deployment.
  destruct (list_instances env service deploy_group) as [|i rest] eqn:Hl;
    [ now contradiction Hsome | ].
  unfold bind at 1. unfold emit at 1.
  unfold try_except, with_Timeout. cbn [now alarm trace].
  set (w1 := mkWorld (now w) (Some (now w + timeout))
               (trace w ++ [EvListInstances service deploy_group])).
  rewrite (poll_loop_converges env service sha (i :: rest)
             (now w + timeout) k fuel w1);
    unfold w1; cbn [now alarm trace]; try reflexivity; try assumption;
    try lia.
  f_equal. f_equal. rewrite <- !app_assoc. reflexivity.
Qed.

(** X5: if the first [k] polls, ten seconds apart, each find some instance
    lagging and the next poll, still before the timeout, finds every
    instance deployed, the wait returns normally after exactly [10 * k]
    seconds.  Every round asked every instance afresh, each lagging round
    was followed by one sleep of 10, nothing was logged, and the alarm is
    cleared. *)
Theorem wait_for_deployment_converges :
  forall env fuel service deploy_group sha soa_dir timeout k w,
    list_instances env service deploy_group <> [] ->
    10 * k < timeout ->
    k < fuel ->
    (forall j, j < k ->
       lagging_at env (now w + 10 * j) service
         (list_instances env service deploy_group) sha) ->
    all_deployed_at env (now w + 10 * k) service
      (list_instances env service deploy_group) sha ->
    wait_for_deployment env fuel service deploy_group sha soa_dir timeout w
    = (Ret tt,
       mkWorld (now w + 10 * k) None
         (trace w ++ EvListInstances service deploy_group
            :: rounds service (list_instances env service deploy_group) k
            ++ polled service (list_instances env service deploy_group))).
Proof.
  exact wait_for_deployment_converges_run.
Qed.

Lemma wait_for_deployment_converges_witness :
  wait_for_deployment (Fixtures.settling None ["main"] 20)
    3 "example" "prod.main" Fixtures.full_sha "/nail/etc/services" 25
    Fixtures.start
  = (Ret tt,
     mkWorld 20 None
       [ EvListInstances "example" "prod.main"
       ; EvStatusInstance "example" "main"; EvSleep 10
       ; EvStatusInstance "example" "main"; EvSleep 10
       ; EvStatusInstance "example" "main" ]).
Proof.
  apply (wait_for_deployment_converges (Fixtures.settling None ["main"] 20)
           3 "example" "prod.main" Fixtures.full_sha "/nail/etc/services"
           25 2 Fixtures.start).
  - discriminate.
  - simpl. lia.
  - lia.
  - intros j Hj. split.
    + intros i _. exists false.
      destruct j as [|[|j]]; [ reflexivity | reflexivity | lia ].
    + exists "main". split; [ left; reflexivity | ].
      destruct j as [|[|j]]; [ reflexivity | reflexivity | lia ].
  - intros i _. reflexivity.
Defined.

(** A round in which the instances of [before] can be decided and the
    next instance has workload data but no observed commit: the round
    stops at that instance with [TypeError]. *)
Lemma deployed_each_raises env service sha before i rest :
  forall w m,
    expired w = false ->
    (forall j, In j before ->
       exists b,
         deployed_status (status_instance env (now w) service j) sha
         = Ret b) ->
    marathon (status_instance env (now w) service i) = Some m ->
    git_sha (status_instance env (now w) service i) = None ->
    deployed_each env service (before ++ i :: rest) sha w
    = (Raise TypeError, after w (polled service (before ++ [i]))).
Proof.
  induction before as [|j before IH]; intros w m Hexp Hdec Hm Hg.
  - simpl. unfold bind at 1.
    rewrite is_instance_deployed_run by assumption.
    unfold deployed_status. now rewrite Hm, Hg.
  - destruct (Hdec j (or_introl eq_refl)) as [b Hb].
    simpl. unfold bind at 1.
    rewrite is_instance_deployed_run by assumption. rewrite Hb.
    unfold bind at 1. fold (after w [EvStatusInstance service j]).
    rewrite (IH (after w [EvStatusInstance service j]) m);
      try assumption.
    + now rewrite after_after.
    + intros j' Hj'. apply Hdec. now right.
Qed.

(** X6: a status with workload data but no observed commit makes the wait
    fail with [TypeError] at the first round: the instances after it are
    not asked, nothing sleeps, the timeout line is not logged and the
    clock has not moved. *)
Theorem wait_for_deployment_status_error :
  forall env fuel service deploy_group sha soa_dir timeout w
         before i rest m,
    list_instances env service deploy_group = (before ++ i :: rest)%list ->
    0 < timeout ->
    0 < fuel ->
    (forall j, In j before ->
       exists b,
         deployed_status (status_instance env (now w) service j) sha
         = Ret b) ->
    marathon (status_instance env (now w) service i) = Some m ->
    git_sha (status_instance env (now w) service i) = None ->
    wait_for_deployment env fuel service deploy_group sha soa_dir timeout w
    = (Raise TypeError,
       mkWorld (now w) None
         (trace w ++ EvListInstances service deploy_group
            :: polled service (before ++ [i]))).
Proof.
  intros env fuel service deploy_group sha soa_dir timeout w
         before i rest m Hl Htimeout Hfuel Hdec Hm Hg.
  unfold wait_for_deployment. rewrite Hl.
  destruct (before ++ i :: rest)%list as [|x xs] eqn:Hsplit;
    [ now destruct before | ].
  rewrite <- Hsplit. clear Hsplit.
  unfold bind at 1. unfold emit at 1.
  unfold try_except, with_Timeout. cbn [now alarm trace].
  destruct fuel as [|fuel]; [ lia | ].
  cbn [poll_loop]. unfold bind at 1.
  rewrite (deployed_each_raises env service sha before i rest _ m);
    cbn [now alarm trace]; try assumption.
  - cbn [is_TimeoutError after now alarm trace].
    f_equal. f_equal. now rewrite <- app_assoc.
  - unfold expired. cbn [now alarm]. apply Nat.leb_gt. lia.
Qed.

Lemma wait_for_deployment_status_error_witness :
  wait_for_deployment
    (Fixtures.steady None ["main"; "canary"] Fixtures.status_no_commit)
    3 "example" "prod.main" Fixtures.full_sha "/nail/etc/services" 25
    Fixtures.start
  = (Raise TypeError,
     mkWorld 0 None
       [ EvListInstances "example" "prod.main"
       ; EvStatusInstance "example" "main" ]).
Proof.
  apply (wait_for_deployment_status_error
           (Fixtures.steady None ["main"; "canary"]
              Fixtures.status_no_commit)
           3 "example" "prod.main" Fixtures.full_sha "/nail/etc/services"
           25 Fixtures.start [] "main" ["canary"] Fixtures.converged);
    try reflexivity; try lia.
  intros j [].
Defined.

Lemma deployed_status_returns status sha :
  deployed_status status sha <> OutOfFuel.
Proof.
  unfold deployed_status.
  destruct (marathon status); [ | discriminate ].
  destruct (git_sha status); discriminate.
Qed.

(** A round never moves the clock, never touches the alarm and never runs
    out of fuel. *)
Lemma deployed_each_frame env service sha instances :
  forall w,
    now (snd (deployed_each env service instances sha w)) = now w /\
    alarm (snd (deployed_each env service instances sha w)) = alarm w /\
    fst (deployed_each env service instances sha w) <> OutOfFuel.
Proof.
  induction instances as [|i rest IH]; intro w.
  - simpl. repeat split. discriminate.
  - simpl. unfold bind at 1 3 5.
    destruct (expired w) eqn:Hexp.
    + rewrite is_instance_deployed_expired by assumption.
      simpl. repeat split. discriminate.
    + rewrite is_instance_deployed_run by assumption.
      pose proof (deployed_status_returns
                    (status_instance env (now w) service i) sha) as Hret.
      destruct (deployed_status _ sha) as [b|e|];
        [ | simpl; repeat split; discriminate | now contradiction Hret ].
      unfold bind.
      destruct (IH (mkWorld (now w) (alarm w)
                      (trace w ++ [EvStatusInstance service i])))
        as [Hnow [Halarm Hfuel]].
      destruct (deployed_each env service rest sha _) as [[bs|e|] w1];
        simpl in *; repeat split; try assumption; try discriminate;
        try (now contradiction Hfuel).
Qed.

(** The loop under an alarm, whatever the statuses are: with fuel for the
    rounds that fit before the deadline it ends, and not after the
    deadline. *)
Lemma poll_loop_bounded env service sha instances deadline :
  forall fuel w,
    alarm w = Some deadline ->
    (deadline - now w) / 10 < fuel ->
    fst (poll_loop env fuel service instances sha w) <> OutOfFuel /\
    now w <= now (snd (poll_loop env fuel service instances sha w)) /\
    now (snd (poll_loop env fuel service instances sha w))
      <= Nat.max (now w) deadline.
Proof.
  induction fuel as [|fuel IH]; intros w Halarm Hfuel; [ lia | ].
  cbn [poll_loop]. unfold bind at 1 3 5.
  destruct (deployed_each_frame env service sha instances w)
    as [Hnow [Hal Hret]].
  destruct (deployed_each env service instances sha w) as [[bs|e|] w1];
    cbn [fst snd] in *;
    [ | repeat split; try discriminate; lia | now contradiction Hret ].
  destruct (all bs).
  - unfold ret. cbn [fst snd]. repeat split; try discriminate; lia.
  - unfold bind. unfold sleep. rewrite Hal, Halarm.
    cbn [now alarm trace].
    destruct (Nat.leb deadline (now w1 + 10)) eqn:Hdue.
    + cbn [fst snd now]. repeat split; try discriminate; lia.
    + apply Nat.leb_gt in Hdue.
      set (w2 := mkWorld (now w1 + 10) (Some deadline)
                   (trace w1 ++ [EvSleep 10])).
      destruct (IH w2) as [Hfuel2 [Hlo Hhi]]; [ reflexivity | | ].
      * unfold w2. cbn [now].
        replace (deadline - now w)
          with ((deadline - (now w1 + 10)) + 1 * 10) in Hfuel by lia.
        rewrite Nat.div_add in Hfuel by lia. lia.
      * assert (Hw2 : now w2 = now w1 + 10) by reflexivity.
        rewrite Hw2 in Hlo, Hhi. fold w2. clearbody w2.
        split; [ exact Hfuel2 | ].
        rewrite Nat.max_r in Hhi by lia. split; lia.
Qed.

(** X7: whatever the statuses are and whatever they do over time, the wait
    ends: with fuel for the rounds that fit in the timeout it never runs
    out of fuel, the clock never goes back and never advances by more than
    the timeout. *)
Theorem wait_for_deployment_bounded :
  forall env fuel service deploy_group sha soa_dir timeout w,
    timeout / 10 < fuel ->
    let run := wait_for_deployment env fuel service deploy_group sha soa_dir
                 timeout w in
    fst run <> OutOfFuel /\
    now w <= now (snd run) <= now w + timeout.
Proof.
  intros env fuel service deploy_group sha soa_dir timeout w Hfuel.
  cbv zeta. unfold wait_for_deployment.
  destruct (list_instances env service deploy_group) as [|i rest].
  - unfold bind, emit, _log, raise. simpl.
    split; [ discriminate | lia ].
  - unfold bind at 1 3 5. unfold emit at 1 2 3.
    unfold try_except, with_Timeout. cbn [now alarm trace].
    set (w1 := mkWorld (now w) (Some (now w + timeout))
                 (trace w ++ [EvListInstances service deploy_group])).
    destruct (poll_loop_bounded env service sha (i :: rest)
                (now w + timeout) fuel w1) as [Hret [Hlo Hhi]].
    + reflexivity.
    + unfold w1. cbn [now].
      replace (now w + timeout - now w) with timeout by lia. exact Hfuel.
    + destruct (poll_loop env fuel service (i :: rest) sha w1)
        as [[[]|e|] w2]; cbn [fst snd now] in *.
      * unfold w1 in *. cbn [now] in *. split; [ discriminate | lia ].
      * unfold w1 in *. cbn [now] in *.
        destruct (is_TimeoutError e);
          unfold bind, _log, emit, raise; cbn [fst snd now];
          (split; [ discriminate | lia ]).
      * now contradiction Hret.
Qed.

Lemma wait_for_deployment_bounded_witness :
  fst (wait_for_deployment (Fixtures.settling None ["main"] 20)
         3 "example" "prod.main" Fixtures.full_sha "/nail/etc/services" 25
         Fixtures.start) <> OutOfFuel /\
  now Fixtures.start
    <= now (snd (wait_for_deployment (Fixtures.settling None ["main"] 20)
                   3 "example" "prod.main" Fixtures.full_sha
                   "/nail/etc/services" 25 Fixtures.start))
    <= now Fixtures.start + 25.
Proof.
  apply (wait_for_deployment_bounded (Fixtures.settling None ["main"] 20)
           3 "example" "prod.main" Fixtures.full_sha "/nail/etc/services"
           25 Fixtures.start).
  vm_compute. lia.
Defined.

(* ================================================================= *)
(** ** Further properties of the command wrapper *)

Lemma prefix_split p s :
  String.prefix p s = true -> exists r, s = p ++ r.
Proof.
  revert s. induction p as [|c p IH]; intros s H.
  - now exists s.
  - destruct s as [|b s]; simpl in H; [ discriminate | ].
    destruct (ascii_dec c b) as [->|]; [ | discriminate ].
    destruct (IH s H) as [r ->]. now exists r.
Qed.

Lemma names_service_total given : exists name, names_service given name.
Proof.
  destruct (Py.startswith given "services-") eqn:Hp.
  - destruct (prefix_split _ _ Hp) as [r ->]. exists r. now left.
  - exists given. now right.
Qed.

(** The name the wrapper works under: the conditional never fails. *)
Lemma resolve_service given name :
  names_service given name ->
  (if negb (String.eqb given "") && Py.startswith given "services-"
   then strip_services given
   else ret given) = ret name.
Proof.
  intros [-> | [Hp ->]].
  - unfold Py.startswith. rewrite prefix_append.
    now rewrite strip_services_prefixed.
  - rewrite Hp. now rewrite andb_false_r.
Qed.

Lemma mark_for_deployment_run_ok env git_url deploy_group service commit :
  create_remote_refs env git_url
    (format_tag env
       (get_paasta_tag_from_deploy_group env deploy_group "deploy"))
    commit = None ->
  forall w,
    mark_for_deployment env git_url deploy_group service commit w
    = (Ret 0%Z,
       after w
         (EvCreateRemoteRefs git_url
            (format_tag env
               (get_paasta_tag_from_deploy_group env deploy_group "deploy"))
            commit true
          :: logged service [marked_line commit deploy_group])).
Proof.
  intros Hpush w. unfold mark_for_deployment. rewrite Hpush.
  unfold bind at 1. unfold emit at 1. unfold bind at 1.
  rewrite log_all_run. unfold ret, after. simpl.
  now rewrite <- app_assoc.
Qed.

Lemma mark_for_deployment_run_failed
    env git_url deploy_group service commit cause :
  create_remote_refs env git_url
    (format_tag env
       (get_paasta_tag_from_deploy_group env deploy_group "deploy"))
    commit = Some cause ->
  forall w,
    mark_for_deployment env git_url deploy_group service commit w
    = (Ret 1%Z,
       after w
         (EvCreateRemoteRefs git_url
            (format_tag env
               (get_paasta_tag_from_deploy_group env deploy_group "deploy"))
            commit true
          :: logged service
               (failed_line commit deploy_group
                  :: Py.split Py.LF cause))).
Proof.
  intros Hpush w. unfold mark_for_deployment. rewrite Hpush.
  unfold bind at 1. unfold emit at 1. unfold bind at 1.
  rewrite log_all_run. unfold ret, after. simpl.
  now rewrite <- app_assoc.
Qed.

(** The wrapper once the name is known, validation has passed and the
    signal has returned: what is left is the wait, if asked for. *)
Lemma wrapper_after_signal env fuel args name w code evs :
  names_service (args_service args) name ->
  validate_service_name env name (args_soa_dir args) = true ->
  mark_for_deployment env (args_git_url args) (args_deploy_group args)
    name (args_commit args) (after w [EvValidate name (args_soa_dir args)])
  = (Ret code, after w (EvValidate name (args_soa_dir args) :: evs)) ->
  paasta_mark_for_deployment env fuel args w =
    if args_block args then
      match
        wait_for_deployment env fuel (args_service args)
          (args_deploy_group args) (args_commit args) (args_soa_dir args)
          (args_timeout args)
          (after w
             (EvValidate name (args_soa_dir args)
                :: evs
                ++ [EvLog name
                      (waiting_line (args_commit args)
                         (args_deploy_group args))
                      "deploy" "event"]))
      with
      | (Ret _, w4) =>
          (Ret code,
           after w4
             [EvLog name
                (complete_line (args_commit args) (args_deploy_group args))
                "deploy" "event"])
      | (Raise e, w4) =>
          if is_TimeoutError e then (Raise (SystemExit 1), w4)
          else (Raise e, w4)
      | (OutOfFuel, w4) => (OutOfFuel, w4)
      end
    else (Ret code, after w (EvValidate name (args_soa_dir args) :: evs)).
Proof.
  intros Hname Hvalid Hmark.
  unfold paasta_mark_for_deployment.
  rewrite (resolve_service _ _ Hname).
  unfold bind at 1. unfold ret at 1.
  unfold bind at 1. unfold emit at 1.
  unfold bind at 1. rewrite Hvalid. unfold ret at 1.
  unfold bind at 1.
  fold (after w [EvValidate name (args_soa_dir args)]).
  rewrite Hmark.
  destruct (args_block args); [ | reflexivity ].
  unfold bind at 1. unfold try_except.
  unfold bind at 1. unfold _log at 1. unfold emit at 1.
  match goal with
  | |- context [mkWorld (now ?x) (alarm ?x) (trace ?x ++ ?l)] =>
      change (mkWorld (now x) (alarm x) (trace x ++ l)) with (after x l)
  end.
  rewrite after_after. cbn [app].
  unfold bind at 1.
  destruct (wait_for_deployment _ _ _ _ _ _ _ _) as [[[]|e|] w4].
  - unfold _log, emit, ret, after. reflexivity.
  - destruct e; reflexivity.
  - reflexivity.
Qed.

Lemma wait_for_deployment_timeout_run
    env fuel service deploy_group sha soa_dir timeout w :
  list_instances env service deploy_group <> [] ->
  never_all_deployed env service
    (list_instances env service deploy_group) sha ->
  timeout / 10 < fuel ->
  exists evs,
    wait_for_deployment env fuel service deploy_group sha soa_dir timeout w
    = (Raise TimeoutError,
       mkWorld (now w + timeout) None
         (trace w ++ EvListInstances service deploy_group :: evs
            ++ [EvLog service
                  (timed_out_line timeout deploy_group service)
                  "deploy" "event"])).
Proof.
  intros Hsome Hnever Hfuel.
  set (w1 := mkWorld (now w) (Some (now w + timeout))
               (trace w ++ [EvListInstances service deploy_group])).
  destruct (poll_loop_times_out env service sha
              (list_instances env service deploy_group)
              (now w + timeout) Hsome Hnever fuel w1)
    as [evs [Hloop _]].
  - reflexivity.
  - unfold w1. cbn [now].
    replace (now w + timeout - now w) with timeout by lia. exact Hfuel.
  - exists evs. unfold wait_for_deployment.
    destruct (list_instances env service deploy_group) as [|i rest];
      [ now contradiction Hsome | ].
    unfold bind at 1. unfold emit at 1.
    unfold try_except, with_Timeout. cbn [now alarm trace].
    fold w1. rewrite Hloop. cbn [is_TimeoutError now alarm trace].
    unfold bind, _log, emit, raise. cbn [now alarm trace].
    unfold w1. cbn [now trace].
    rewrite Nat.max_r by lia.
    f_equal. f_equal. rewrite <- !app_assoc. reflexivity.
Qed.

(** X8: without the wait flag the wrapper only validates, pushes and logs.
    Whatever the service argument is, a name is found for it (taking the
    second piece of the split never fails); a name that does not validate
    stops the wrapper before anything is pushed; otherwise the outcome of
    the wrapper is the outcome of [mark_for_deployment] run under that
    name after the validation, return code and world included: the code is
    0 when the push went through and 1 when it raised, no instance list or
    status was asked for, nothing slept and the clock has not moved. *)
Theorem wrapper_without_wait :
  forall env fuel args w,
    args_block args = false ->
    exists name,
      names_service (args_service args) name /\
      (validate_service_name env name (args_soa_dir args) = false ->
       paasta_mark_for_deployment env fuel args w
       = (Raise NoSuchService,
          after w [EvValidate name (args_soa_dir args)])) /\
      (validate_service_name env name (args_soa_dir args) = true ->
       paasta_mark_for_deployment env fuel args w
       = mark_for_deployment env (args_git_url args)
           (args_deploy_group args) name (args_commit args)
           (after w [EvValidate name (args_soa_dir args)]) /\
       exists code lines,
         code
         = match
             create_remote_refs env (args_git_url args)
               (format_tag env
                  (get_paasta_tag_from_deploy_group env
                     (args_deploy_group args) "deploy"))
               (args_commit args)
           with
           | None => 0%Z
           | Some _ => 1%Z
           end /\
         paasta_mark_for_deployment env fuel args w
         = (Ret code,
            after w
              (EvValidate name (args_soa_dir args)
               :: EvCreateRemoteRefs (args_git_url args)
                    (format_tag env
                       (get_paasta_tag_from_deploy_group env
                          (args_deploy_group args) "deploy"))
                    (args_commit args) true
               :: logged name lines))).
Proof.
  intros env fuel args w Hblock.
  destruct (names_service_total (args_service args)) as [name Hname].
  exists name. split; [ exact Hname | split ].
  - intro Hinvalid. unfold paasta_mark_for_deployment.
    rewrite (resolve_service _ _ Hname).
    unfold bind at 1. unfold ret at 1.
    unfold bind at 1. unfold emit at 1.
    unfold bind at 1. rewrite Hinvalid. reflexivity.
  - intro Hvalid.
    assert (Hshape :
      exists code lines,
        code
        = match
            create_remote_refs env (args_git_url args)
              (format_tag env
                 (get_paasta_tag_from_deploy_group env
                    (args_deploy_group args) "deploy"))
              (args_commit args)
          with
          | None => 0%Z
          | Some _ => 1%Z
          end /\
        forall w0,
          mark_for_deployment env (args_git_url args)
            (args_deploy_group args) name (args_commit args) w0
          = (Ret code,
             after w0
               (EvCreateRemoteRefs (args_git_url args)
                  (format_tag env
                     (get_paasta_tag_from_deploy_group env
                        (args_deploy_group args) "deploy"))
                  (args_commit args) true
                :: logged name lines))).
    { destruct (create_remote_refs env (args_git_url args)
                  (format_tag env
                     (get_paasta_tag_from_deploy_group env
                        (args_deploy_group args) "deploy"))
                  (args_commit args)) as [cause|] eqn:Hpush.
      - exists 1%Z,
          (failed_line (args_commit args) (args_deploy_group args)
             :: Py.split Py.LF cause).
        split; [ reflexivity | ].
        now apply mark_for_deployment_run_failed.
      - exists 0%Z,
          [marked_line (args_commit args) (args_deploy_group args)].
        split; [ reflexivity | ].
        now apply mark_for_deployment_run_ok. }
    destruct Hshape as [code [lines [Hcode Hmark]]].
    assert (Hrun :
      paasta_mark_for_deployment env fuel args w
      = (Ret code,
         after w
           (EvValidate name (args_soa_dir args)
            :: EvCreateRemoteRefs (args_git_url args)
                 (format_tag env
                    (get_paasta_tag_from_deploy_group env
                       (args_deploy_group args) "deploy"))
                 (args_commit args) true
            :: logged name lines))).
    { rewrite (wrapper_after_signal env fuel args name w code
                 (EvCreateRemoteRefs (args_git_url args)
                    (format_tag env
                       (get_paasta_tag_from_deploy_group env
                          (args_deploy_group args) "deploy"))
                    (args_commit args) true
                  :: logged name lines) Hname Hvalid).
      - now rewrite Hblock.
      - rewrite Hmark. now rewrite after_after. }
    split.
    + rewrite Hrun, Hmark. now rewrite after_after.
    + exists code, lines. split; assumption.
Qed.

(** The wrapper run without the wait flag after a push that raised: the
    outcome is that of the signal, with return code 1. *)
Lemma wrapper_without_wait_witness :
  exists name,
    names_service "services-example" name /\
    paasta_mark_for_deployment
      (Fixtures.steady (Some Fixtures.rejected) ["main"]
         Fixtures.status_converged) 0
      (mkArgs "git@git.example:services/example" Fixtures.full_sha
         "prod.main" "services-example" false 1200 "/nail/etc/services")
      Fixtures.start
    = mark_for_deployment
        (Fixtures.steady (Some Fixtures.rejected) ["main"]
           Fixtures.status_converged)
        "git@git.example:services/example" "prod.main" name
        Fixtures.full_sha
        (after Fixtures.start [EvValidate name "/nail/etc/services"]) /\
    exists lines,
      paasta_mark_for_deployment
        (Fixtures.steady (Some Fixtures.rejected) ["main"]
           Fixtures.status_converged) 0
        (mkArgs "git@git.example:services/example" Fixtures.full_sha
           "prod.main" "services-example" false 1200 "/nail/etc/services")
        Fixtures.start
      = (Ret 1%Z,
         after Fixtures.start
           (EvValidate name "/nail/etc/services"
            :: EvCreateRemoteRefs "git@git.example:services/example"
                 "refs/tags/paasta-prod.main-deploy" Fixtures.full_sha true
            :: logged name lines)).
Proof.
  destruct (wrapper_without_wait
              (Fixtures.steady (Some Fixtures.rejected) ["main"]
                 Fixtures.status_converged) 0
              (mkArgs "git@git.example:services/example" Fixtures.full_sha
                 "prod.main" "services-example" false 1200
                 "/nail/etc/services")
              Fixtures.start eq_refl)
    as [name [Hname [_ Hvalid]]].
  exists name. split; [ exact Hname | ].
  destruct (Hvalid eq_refl) as [Hsame [code [lines [Hcode Hrun]]]].
  split; [ exact Hsame | ].
  exists lines. rewrite Hrun. simpl in Hcode. now rewrite Hcode.
Defined.

(** X9: for a service argument without the "services-" prefix the two
    paths agree: when validation passes and the wait is asked for, the
    name validated, the name the signal is logged under and the name whose
    instances the wait asks for are all the argument itself. *)
Theorem wrapper_plain_service_agrees :
  forall env fuel args w,
    Py.startswith (args_service args) "services-" = false ->
    validate_service_name env (args_service args) (args_soa_dir args)
      = true ->
    args_block args = true ->
    exists lines later,
      trace (snd (paasta_mark_for_deployment env fuel args w))
      = (trace w
           ++ EvValidate (args_service args) (args_soa_dir args)
           :: EvCreateRemoteRefs (args_git_url args)
                (format_tag env
                   (get_paasta_tag_from_deploy_group env
                      (args_deploy_group args) "deploy"))
                (args_commit args) true
           :: logged (args_service args) lines
           ++ EvLog (args_service args)
                (waiting_line (args_commit args) (args_deploy_group args))
                "deploy" "event"
           :: EvListInstances (args_service args) (args_deploy_group args)
           :: later)%list.
Proof.
  intros env fuel args w Hplain Hvalid Hblock.
  assert (Hname : names_service (args_service args) (args_service args))
    by (right; split; [ exact Hplain | reflexivity ]).
  destruct (mark_for_deployment_run env (args_git_url args)
              (args_deploy_group args) (args_service args)
              (args_commit args))
    as [code [lines Hmark]].
  exists lines.
  rewrite (wrapper_after_signal env fuel args (args_service args) w code
             (EvCreateRemoteRefs (args_git_url args)
                (format_tag env
                   (get_paasta_tag_from_deploy_group env
                      (args_deploy_group args) "deploy"))
                (args_commit args) true
              :: logged (args_service args) lines) Hname Hvalid);
    [ | rewrite Hmark; now rewrite after_after ].
  rewrite Hblock.
  match goal with
  | |- context [wait_for_deployment ?e ?f ?s ?d ?c ?o ?t ?x] =>
      destruct (wait_for_deployment_asks_first e f s d c o t x)
        as [later Hlater];
      destruct (wait_for_deployment e f s d c o t x) as [[[]|e'|] w4]
  end; cbn [snd] in Hlater.
  - exists (later ++ [EvLog (args_service args)
                        (complete_line (args_commit args)
                           (args_deploy_group args))
                        "deploy" "event"])%list.
    cbn [snd after trace]. rewrite Hlater. cbn [after trace].
    rewrite <- !app_assoc. cbn [app]. rewrite <- !app_assoc. reflexivity.
  - exists later.
    destruct (is_TimeoutError e'); cbn [snd]; rewrite Hlater;
      cbn [after trace]; rewrite <- !app_assoc; cbn [app];
      rewrite <- !app_assoc; reflexivity.
  - exists later. cbn [snd]. rewrite Hlater. cbn [after trace].
    rewrite <- !app_assoc. cbn [app]. rewrite <- !app_assoc. reflexivity.
Qed.

Lemma wrapper_plain_service_agrees_witness :
  exists lines later,
    trace (snd (paasta_mark_for_deployment
                  (Fixtures.steady None ["main"] Fixtures.status_converged)
                  3 Fixtures.plain_args Fixtures.start))
    = (trace Fixtures.start
         ++ EvValidate "example" "/nail/etc/services"
         :: EvCreateRemoteRefs "git@git.example:services/example"
              "refs/tags/paasta-prod.main-deploy" Fixtures.full_sha true
         :: logged "example" lines
         ++ EvLog "example"
              (waiting_line Fixtures.full_sha "prod.main") "deploy" "event"
         :: EvListInstances "example" "prod.main"
         :: later)%list.
Proof.
  apply (wrapper_plain_service_agrees
           (Fixtures.steady None ["main"] Fixtures.status_converged)
           3 Fixtures.plain_args Fixtures.start);
    reflexivity.
Defined.

(** X10: a push that failed does not stop the wrapper from waiting.  With
    the wait asked for and the deployment converging after [k] lagging
    rounds, the failure lines are logged, the wait runs to its end, the
    completion line is logged all the same, and the wrapper returns 1. *)
Theorem wrapper_waits_after_failed_signal :
  forall env fuel args name w cause k,
    let given := args_service args in
    let deploy_group := args_deploy_group args in
    let commit := args_commit args in
    let instances := list_instances env given deploy_group in
    let ref :=
      format_tag env
        (get_paasta_tag_from_deploy_group env deploy_group "deploy") in
    names_service given name ->
    validate_service_name env name (args_soa_dir args) = true ->
    create_remote_refs env (args_git_url args) ref commit = Some cause ->
    args_block args = true ->
    instances <> [] ->
    10 * k < args_timeout args ->
    k < fuel ->
    (forall j, j < k ->
       lagging_at env (now w + 10 * j) given instances commit) ->
    all_deployed_at env (now w + 10 * k) given instances commit ->
    paasta_mark_for_deployment env fuel args w
    = (Ret 1%Z,
       mkWorld (now w + 10 * k) None
         (trace w
            ++ EvValidate name (args_soa_dir args)
            :: EvCreateRemoteRefs (args_git_url args) ref commit true
            :: logged name
                 (failed_line commit deploy_group :: Py.split Py.LF cause)
            ++ EvLog name (waiting_line commit deploy_group)
                 "deploy" "event"
            :: EvListInstances given deploy_group
            :: rounds given instances k
            ++ polled given instances
            ++ [EvLog name (complete_line commit deploy_group)
                  "deploy" "event"])).
Proof.
  intros env fuel args name w cause k given deploy_group commit instances
         ref Hname Hvalid Hpush Hblock Hsome Hfar Hfuel Hlag Hall.
  rewrite (wrapper_after_signal env fuel args name w 1%Z
             (EvCreateRemoteRefs (args_git_url args) ref commit true
              :: logged name
                   (failed_line commit deploy_group
                      :: Py.split Py.LF cause)) Hname Hvalid).
  - rewrite Hblock.
    rewrite (wait_for_deployment_converges_run env fuel given deploy_group
               commit (args_soa_dir args) (args_timeout args) k);
      try assumption.
    unfold after. cbn [now alarm trace].
    f_equal. f_equal.
    unfold logged. cbn [map app].
    repeat (rewrite <- app_assoc; cbn [app]). reflexivity.
  - rewrite (mark_for_deployment_run_failed env (args_git_url args)
               deploy_group name commit cause Hpush).
    now rewrite after_after.
Qed.

Lemma wrapper_waits_after_failed_signal_witness :
  paasta_mark_for_deployment
    (Fixtures.settling (Some Fixtures.rejected) ["main"] 10)
    3 Fixtures.blocking_args Fixtures.start
  = (Ret 1%Z,
     mkWorld 10 None
       [ EvValidate "example" "/nail/etc/services"
       ; EvCreateRemoteRefs "git@git.example:services/example"
           "refs/tags/paasta-prod.main-deploy" Fixtures.full_sha true
       ; EvLog "example" (failed_line Fixtures.full_sha "prod.main")
           "deploy" "event"
       ; EvLog "example" "remote: denied" "deploy" "event"
       ; EvLog "example" "fatal: could not push" "deploy" "event"
       ; EvLog "example" (waiting_line Fixtures.full_sha "prod.main")
           "deploy" "event"
       ; EvListInstances "services-example" "prod.main"
       ; EvStatusInstance "services-example" "main"
       ; EvSleep 10
       ; EvStatusInstance "services-example" "main"
       ; EvLog "example" (complete_line Fixtures.full_sha "prod.main")
           "deploy" "event" ]).
Proof.
  apply (wrapper_waits_after_failed_signal
           (Fixtures.settling (Some Fixtures.rejected) ["main"] 10)
           3 Fixtures.blocking_args "example" Fixtures.start
           Fixtures.rejected 1).
  - left. reflexivity.
  - reflexivity.
  - reflexivity.
  - reflexivity.
  - discriminate.
  - simpl. lia.
  - lia.
  - intros j Hj. assert (j = 0) as -> by lia. split.
    + intros i _. exists false. reflexivity.
    + exists "main". split; [ left; reflexivity | reflexivity ].
  - intros i _. reflexivity.
Defined.

(** X11: a wait that times out inside the wrapper ends the command with
    [SystemExit(1)] once the timeout has passed, whatever the signal
    returned; the last line logged is the timeout line, and it is logged
    under, and names, the service argument as it was given. *)
Theorem wrapper_exits_on_timeout :
  forall env fuel args name w,
    let given := args_service args in
    let deploy_group := args_deploy_group args in
    names_service given name ->
    validate_service_name env name (args_soa_dir args) = true ->
    args_block args = true ->
    list_instances env given deploy_group <> [] ->
    never_all_deployed env given (list_instances env given deploy_group)
      (args_commit args) ->
    args_timeout args / 10 < fuel ->
    exists earlier w',
      paasta_mark_for_deployment env fuel args w
      = (Raise (SystemExit 1), w') /\
      now w' = now w + args_timeout args /\
      trace w'
      = (earlier
           ++ [EvLog given
                 (timed_out_line (args_timeout args) deploy_group given)
                 "deploy" "event"])%list.
Proof.
  intros env fuel args name w given deploy_group
         Hname Hvalid Hblock Hsome Hnever Hfuel.
  destruct (mark_for_deployment_run env (args_git_url args)
              deploy_group name (args_commit args))
    as [code [lines Hmark]].
  rewrite (wrapper_after_signal env fuel args name w code
             (EvCreateRemoteRefs (args_git_url args)
                (format_tag env
                   (get_paasta_tag_from_deploy_group env deploy_group
                      "deploy"))
                (args_commit args) true
              :: logged name lines) Hname Hvalid);
    [ | rewrite Hmark; now rewrite after_after ].
  rewrite Hblock.
  match goal with
  | |- context [wait_for_deployment ?e ?f ?s ?d ?c ?o ?t ?x] =>
      destruct (wait_for_deployment_timeout_run e f s d c o t x
                  Hsome Hnever Hfuel) as [evs Hwait]
  end.
  rewrite Hwait. cbn [is_TimeoutError].
  match goal with
  | |- context [mkWorld ?n None (?T ++ ?E :: evs ++ ?L)%list] =>
      exists (T ++ E :: evs)%list, (mkWorld n None (T ++ E :: evs ++ L))
  end.
  split; [ reflexivity | ]. split; [ reflexivity | ].
  cbn [trace]. rewrite <- app_assoc. reflexivity.
Qed.

Lemma wrapper_exits_on_timeout_witness :
  exists earlier w',
    paasta_mark_for_deployment
      (Fixtures.steady None ["main"] Fixtures.status_scaling_up)
      3 Fixtures.blocking_args Fixtures.start
    = (Raise (SystemExit 1), w') /\
    now w' = 25 /\
    trace w'
    = (earlier
         ++ [EvLog "services-example"
               (timed_out_line 25 "prod.main" "services-example")
               "deploy" "event"])%list.
Proof.
  apply (wrapper_exits_on_timeout
           (Fixtures.steady None ["main"] Fixtures.status_scaling_up)
           3 Fixtures.blocking_args "example" Fixtures.start).
  - left. reflexivity.
  - reflexivity.
  - reflexivity.
  - discriminate.
  - intro t. split.
    + intros i _. exists false. reflexivity.
    + exists "main". split; [ left; reflexivity | reflexivity ].
  - vm_compute. lia.
Defined.

(** X12: when the wait finds no instance, the wrapper lets
    [NoInstancesFound] through as it is, with no exit code put in its
    place; by then the name has been validated, the ref pushed and its
    outcome logged, and the line about the missing instances is logged
    under the service argument as given. *)
Theorem wrapper_no_instances :
  forall env fuel args name w,
    let given := args_service args in
    let deploy_group := args_deploy_group args in
    let commit := args_commit args in
    names_service given name ->
    validate_service_name env name (args_soa_dir args) = true ->
    args_block args = true ->
    list_instances env given deploy_group = [] ->
    exists lines,
      paasta_mark_for_deployment env fuel args w
      = (Raise NoInstancesFound,
         after w
           (EvValidate name (args_soa_dir args)
            :: EvCreateRemoteRefs (args_git_url args)
                 (format_tag env
                    (get_paasta_tag_from_deploy_group env deploy_group
                       "deploy"))
                 commit true
            :: logged name lines
            ++ [ EvLog name (waiting_line commit deploy_group)
                   "deploy" "event"
               ; EvListInstances given deploy_group
               ; EvLog given (no_instances_line given deploy_group)
                   "deploy" "event" ])).
Proof.
  intros env fuel args name w given deploy_group commit
         Hname Hvalid Hblock Hnone.
  destruct (mark_for_deployment_run env (args_git_url args)
              deploy_group name commit)
    as [code [lines Hmark]].
  exists lines.
  rewrite (wrapper_after_signal env fuel args name w code
             (EvCreateRemoteRefs (args_git_url args)
                (format_tag env
                   (get_paasta_tag_from_deploy_group env deploy_group
                      "deploy"))
                commit true
              :: logged name lines) Hname Hvalid);
    [ | rewrite Hmark; now rewrite after_after ].
  rewrite Hblock. unfold wait_for_deployment. fold given deploy_group.
  rewrite Hnone. unfold bind, _log, emit, raise.
  cbn [is_TimeoutError after now alarm trace].
  f_equal. f_equal.
  repeat (rewrite <- app_assoc; cbn [app]). reflexivity.
Qed.

Lemma wrapper_no_instances_witness :
  exists lines,
    paasta_mark_for_deployment
      (Fixtures.steady None [] Fixtures.status_converged)
      3 Fixtures.blocking_args Fixtures.start
    = (Raise NoInstancesFound,
       after Fixtures.start
         (EvValidate "example" "/nail/etc/services"
          :: EvCreateRemoteRefs "git@git.example:services/example"
               "refs/tags/paasta-prod.main-deploy" Fixtures.full_sha true
          :: logged "example" lines
          ++ [ EvLog "example"
                 (waiting_line Fixtures.full_sha "prod.main")
                 "deploy" "event"
             ; EvListInstances "services-example" "prod.main"
             ; EvLog "services-example"
                 (no_instances_line "services-example" "prod.main")
                 "deploy" "event" ])).
Proof.
  apply (wrapper_no_instances
           (Fixtures.steady None [] Fixtures.status_converged)
           3 Fixtures.blocking_args "example" Fixtures.start).
  - left. reflexivity.
  - reflexivity.
  - reflexivity.
  - reflexivity.
Defined.

(** An invalid name stops the command at once. *)
Lemma wrapper_stops_on_invalid env fuel args name w :
  names_service (args_service args) name ->
  validate_service_name env name (args_soa_dir args) = false ->
  paasta_mark_for_deployment env fuel args w
  = (Raise NoSuchService, after w [EvValidate name (args_soa_dir args)]).
Proof.
  intros Hname Hinvalid. unfold paasta_mark_for_deployment.
  rewrite (resolve_service _ _ Hname).
  unfold bind at 1. unfold ret at 1.
  unfold bind at 1. unfold emit at 1.
  unfold bind at 1. rewrite Hinvalid. reflexivity.
Qed.

(** X13: a service name that does not validate stops the command before
    any ref is pushed, with or without the wait flag: the only external
    call made is the validation, of the name with a leading "services-"
    removed. *)
Theorem wrapper_invalid_name_pushes_nothing :
  forall env fuel args name w,
    names_service (args_service args) name ->
    validate_service_name env name (args_soa_dir args) = false ->
    paasta_mark_for_deployment env fuel args w
    = (Raise NoSuchService,
       mkWorld (now w) (alarm w)
         (trace w ++ [EvValidate name (args_soa_dir args)])).
Proof.
  intros env fuel args name w Hname Hinvalid.
  now rewrite (wrapper_stops_on_invalid env fuel args name w).
Qed.

Lemma wrapper_invalid_name_pushes_nothing_witness :
  paasta_mark_for_deployment
    (mkCollaborators (fun identifier _ => identifier) (fun tag => tag)
       (fun _ _ _ => None) (fun _ _ => false) (fun _ _ => ["main"])
       (fun _ _ _ => Fixtures.status_converged))
    3 Fixtures.blocking_args Fixtures.start
  = (Raise NoSuchService,
     mkWorld 0 None [EvValidate "example" "/nail/etc/services"]).
Proof.
  apply (wrapper_invalid_name_pushes_nothing
           (mkCollaborators (fun identifier _ => identifier) (fun tag => tag)
              (fun _ _ _ => None) (fun _ _ => false) (fun _ _ => ["main"])
              (fun _ _ _ => Fixtures.status_converged))
           3 Fixtures.blocking_args "example" Fixtures.start).
  - left. reflexivity.
  - reflexivity.
Defined.

(* ================================================================= *)
(** ** Further properties of the intent signal *)

Lemma split_clean sep p : Py.count sep p = 0 -> Py.split sep p = [p].
Proof.
  induction p as [|c p IH]; simpl; [ reflexivity | ].
  destruct (Ascii.eqb c sep); [ discriminate | ].
  intro H. now rewrite (IH H).
Qed.

Lemma split_append_sep sep p rest :
  Py.count sep p = 0 ->
  Py.split sep (p ++ String sep rest) = p :: Py.split sep rest.
Proof.
  induction p as [|c p IH]; simpl.
  - now rewrite Ascii.eqb_refl.
  - destruct (Ascii.eqb c sep); [ discriminate | ].
    intro H. now rewrite (IH H).
Qed.

(** Splitting what was joined gives the pieces back, when there is at
    least one piece and no piece holds the separator. *)
Lemma split_join sep pieces :
  pieces <> [] ->
  Forall (fun piece => Py.count sep piece = 0) pieces ->
  Py.split sep (Py.join sep pieces) = pieces.
Proof.
  unfold Py.join.
  induction pieces as [|p ps IH]; intros Hsome Hclean;
    [ now contradiction Hsome | ].
  inversion Hclean as [|? ? Hp Hps]; subst.
  destruct ps as [|q qs].
  - simpl. now apply split_clean.
  - change (String.concat (String sep "") (p :: q :: qs))
      with (p ++ String sep (String.concat (String sep "") (q :: qs))).
    rewrite split_append_sep by assumption.
    f_equal. apply IH; [ discriminate | assumption ].
Qed.

(** X14: when the push fails with a message made of the given lines
    joined by line feeds (at least one line, none holding a line feed),
    the signal returns 1 and logs the header followed by exactly those
    lines, in order. *)
Theorem failure_logs_the_message_lines :
  forall env git_url deploy_group service commit lines w,
    lines <> [] ->
    Forall (fun line => Py.count Py.LF line = 0) lines ->
    create_remote_refs env git_url
      (format_tag env
         (get_paasta_tag_from_deploy_group env deploy_group "deploy"))
      commit = Some (Py.join Py.LF lines) ->
    mark_for_deployment env git_url deploy_group service commit w
    = (Ret 1%Z,
       mkWorld (now w) (alarm w)
         (trace w
            ++ EvCreateRemoteRefs git_url
                 (format_tag env
                    (get_paasta_tag_from_deploy_group env deploy_group
                       "deploy"))
                 commit true
            :: logged service (failed_line commit deploy_group :: lines))).
Proof.
  intros env git_url deploy_group service commit lines w
         Hsome Hclean Hpush.
  rewrite (mark_for_deployment_run_failed env git_url deploy_group service
             commit _ Hpush).
  now rewrite split_join.
Qed.

Lemma failure_logs_the_message_lines_witness :
  mark_for_deployment
    (Fixtures.steady (Some Fixtures.rejected) ["main"]
       Fixtures.status_converged)
    "git@git.example:services/example" "prod.main" "example"
    Fixtures.full_sha Fixtures.start
  = (Ret 1%Z,
     mkWorld 0 None
       (EvCreateRemoteRefs "git@git.example:services/example"
          "refs/tags/paasta-prod.main-deploy" Fixtures.full_sha true
        :: logged "example"
             [ failed_line Fixtures.full_sha "prod.main"
             ; "remote: denied"; "fatal: could not push" ])).
Proof.
  apply (failure_logs_the_message_lines
           (Fixtures.steady (Some Fixtures.rejected) ["main"]
              Fixtures.status_converged)
           "git@git.example:services/example" "prod.main" "example"
           Fixtures.full_sha ["remote: denied"; "fatal: could not push"]
           Fixtures.start).
  - discriminate.
  - repeat constructor.
  - reflexivity.
Defined.
